(** * DocuFill: the spreadsheet schema reader and the document fill engine

    A shallow embedding of [src/utils/excel_reader.py],
    [src/utils/document_filler.py], [src/constants/excel_constants.py] and of
    [validate_template] in [app.py], followed by the properties of the
    specification that were checked against it.

    Modelling conventions.
    - Python [str] is [string]; characters are single bytes, and [strip],
      [upper] and [lower] act on the ASCII range only.
    - A raised exception is the [Raise] case of [result]; [try/except] is a
      [match] on it.
    - The third-party libraries are not re-implemented.  What
      [pd.read_excel] returns for the configuration file is an input of the
      reader ([result DataFrame]); the template renderer (docxtpl) and the
      external converter (LibreOffice) are section variables of the filler.
    - The template directory is a finite map from file names to the bytes of
      its regular files and is only read.  The output side is a disk of
      directories and files addressed by [pathlib] parts; creating a
      directory with [parents=True, exist_ok=True] and writing a file below
      it are taken to succeed.  [print] appends a line to a list. *)

From Stdlib Require Import String Ascii ZArith List Bool Lia DecimalString.
From Stdlib.Strings Require Import Byte.
From Stdlib Require QArith Sorted.
From stdpp Require Import gmap strings list.

Local Open Scope Z_scope.

(* ===================================================================== *)
(** * Python values and strings *)
(* ===================================================================== *)

Module Py.

(** [str.isspace] on the ASCII range: tab, LF, VT, FF, CR, the four
    separators FS..US, and the space. *)
Definition is_space (c : ascii) : bool :=
  let n := nat_of_ascii c in
  ((9 <=? n) && (n <=? 13) || (28 <=? n) && (n <=? 32))%nat.

Definition is_lower (c : ascii) : bool :=
  let n := nat_of_ascii c in ((97 <=? n) && (n <=? 122))%nat.

Definition is_upper (c : ascii) : bool :=
  let n := nat_of_ascii c in ((65 <=? n) && (n <=? 90))%nat.

Definition is_digit (c : ascii) : bool :=
  let n := nat_of_ascii c in ((48 <=? n) && (n <=? 57))%nat.

Definition upper_char (c : ascii) : ascii :=
  if is_lower c then ascii_of_nat (nat_of_ascii c - 32) else c.

Definition lower_char (c : ascii) : ascii :=
  if is_upper c then ascii_of_nat (nat_of_ascii c + 32) else c.

Fixpoint map_string (f : ascii -> ascii) (s : string) : string :=
  match s with
  | EmptyString => EmptyString
  | String c s' => String (f c) (map_string f s')
  end.

(** [s.upper()] and [s.lower()]. *)
Definition upper : string -> string := map_string upper_char.
Definition lower : string -> string := map_string lower_char.

Fixpoint lstrip (s : string) : string :=
  match s with
  | EmptyString => EmptyString
  | String c s' => if is_space c then lstrip s' else s
  end.

Fixpoint rstrip (s : string) : string :=
  match s with
  | EmptyString => EmptyString
  | String c s' =>
      match rstrip s' with
      | EmptyString => if is_space c then EmptyString else String c EmptyString
      | r => String c r
      end
  end.

(** [s.strip()]. *)
Definition strip (s : string) : string := rstrip (lstrip s).

(** [all(p(c) for c in s)]. *)
Fixpoint all_chars (p : ascii -> bool) (s : string) : bool :=
  match s with
  | EmptyString => true
  | String c s' => p c && all_chars p s'
  end.

(** [s.startswith(p)]. *)
Definition startswith (s p : string) : bool := String.prefix p s.

(** [s.endswith(p)]. *)
Definition endswith (s p : string) : bool :=
  let n := String.length s in
  let k := String.length p in
  (k <=? n)%nat && String.eqb (String.substring (n - k) k s) p.

(** [sep.join(l)]. *)
Fixpoint join (sep : string) (l : list string) : string :=
  match l with
  | [] => ""
  | [x] => x
  | x :: l' => x +:+ sep +:+ join sep l'
  end.

(** [x in l] for a list of strings. *)
Definition str_in (x : string) (l : list string) : bool :=
  existsb (String.eqb x) l.

(** The line feed inside a message. *)
Definition nl : string := String (ascii_of_nat 10) EmptyString.

(** A float is observed here only through [bool(x)] and [str(x)], so a
    float other than NaN is given by these two; NaN, the value pandas
    stores for a blank cell, is kept apart. *)
Inductive pyfloat : Type :=
| NaN
| Float (nonzero : bool) (repr : string).

(** The values a cell or a form entry can hold.  [PObj] is any object of
    another class (a [Timestamp], [NaT], ...), known by its [str]. *)
Inductive pyval : Type :=
| PNone
| PBool (b : bool)
| PInt (n : Z)
| PFloat (x : pyfloat)
| PStr (s : string)
| PObj (repr : string).

(** [str(v)]. *)
Definition str (v : pyval) : string :=
  match v with
  | PNone => "None"
  | PBool true => "True"
  | PBool false => "False"
  | PInt n => NilZero.string_of_int (Z.to_int n)
  | PFloat NaN => "nan"
  | PFloat (Float _ r) => r
  | PStr s => s
  | PObj r => r
  end.

(** [bool(v)] for the scalar values above. *)
Definition truthy (v : pyval) : bool :=
  match v with
  | PNone => false
  | PBool b => b
  | PInt n => negb (n =? 0)
  | PFloat NaN => true
  | PFloat (Float nz _) => nz
  | PStr s => negb (String.eqb s "")
  | PObj _ => true
  end.

(** [pd.isna(v)] on a scalar. *)
Definition isna (v : pyval) : bool :=
  match v with
  | PNone | PFloat NaN => true
  | PObj r => String.eqb r "NaT"
  | _ => false
  end.

Inductive exn : Type :=
| ValueError (msg : string)
| FileNotFoundError (msg : string)
| Exception (msg : string).

(** [str(e)]. *)
Definition exn_str (e : exn) : string :=
  match e with
  | ValueError m | FileNotFoundError m | Exception m => m
  end.

Inductive result (A : Type) : Type :=
| Ok (a : A)
| Raise (e : exn).
Arguments Ok {A} a.
Arguments Raise {A} e.

Definition bind {A B} (r : result A) (k : A -> result B) : result B :=
  match r with
  | Ok a => k a
  | Raise e => Raise e
  end.

End Py.

(** [x ← r; k] runs [k] when [r] returned and propagates what it raised. *)
#[global] Instance result_bind : MBind Py.result := fun A B k r => Py.bind r k.

(* ===================================================================== *)
(** * constants/excel_constants.py *)
(* ===================================================================== *)

Module ExcelConstants.

(** The entries of the dictionary [EXCEL_COLUMNS], one constant each. *)
Definition EXCEL_COLUMNS_LABEL : string := "label".
Definition EXCEL_COLUMNS_KEY : string := "key".
Definition EXCEL_COLUMNS_MULTIPLE : string := "multiple".
Definition EXCEL_COLUMNS_TYPE : string := "type".
Definition EXCEL_COLUMNS_NOTE : string := "note".

Definition EXCEL_REQUIRED_COLUMNS : list string :=
  [EXCEL_COLUMNS_LABEL; EXCEL_COLUMNS_KEY].

Definition EXCEL_MULTIPLE_COLUMNS : list string :=
  [EXCEL_COLUMNS_MULTIPLE; EXCEL_COLUMNS_TYPE].

(** The dictionary [{'TRUE': True, 'FALSE': False}]. *)
Definition EXCEL_BOOLEAN_MAPPING : gmap string bool :=
  <["TRUE" := true]> (<["FALSE" := false]> ∅).

Definition DEFAULT_CONFIG_EXCEL_FILENAME : string := "config.xlsx".

End ExcelConstants.

(* ===================================================================== *)
(** * utils/excel_reader.py *)
(* ===================================================================== *)

Module ExcelReader.
Import Py ExcelConstants.

(** A [pandas.DataFrame] as [read_excel] builds it: the header row and the
    data rows, each row holding one cell per column, left to right.  A row
    shorter than the header has blank (NaN) cells at its end. *)
Record DataFrame : Type := mkDataFrame {
  columns : list string;
  rows : list (list pyval)
}.

(** A row handed out by [df.iterrows()]: a [Series] indexed by the column
    names. *)
Record Series : Type := mkSeries {
  index : list string;
  values : list pyval
}.

Definition iterrows (df : DataFrame) : list Series :=
  map (mkSeries (columns df)) (rows df).

Fixpoint position (col : string) (idx : list string) : option nat :=
  match idx with
  | [] => None
  | c :: idx' =>
      if String.eqb c col then Some 0%nat
      else option_map S (position col idx')
  end.

(** [row[col]] for a column of the index. *)
Definition cell_at (vals : list pyval) (i : nat) : pyval :=
  nth i vals (PFloat NaN).

(** [row.get(col, default)]. *)
Definition series_get (row : Series) (col : string) (default : pyval) : pyval :=
  match position col (index row) with
  | Some i => cell_at (values row) i
  | None => default
  end.

(** [col in row.index], [col in df.columns]. *)
Definition has_column (idx : list string) (col : string) : bool :=
  str_in col idx.

(** One field dictionary [{'label', 'key', 'multiple', 'note'}]. *)
Record Field : Type := mkField {
  f_label : string;
  f_key : string;
  f_multiple : bool;
  f_note : string
}.

(** [_validate_columns]. *)
Definition _validate_columns (df : DataFrame) : result unit :=
  let missing_columns :=
    filter (fun col => has_column (columns df) col = false)
           EXCEL_REQUIRED_COLUMNS in
  match missing_columns with
  | [] => Ok tt
  | _ :: _ =>
      Raise (ValueError
        ("Missing required columns: " +:+ join ", " missing_columns +:+ nl +:+
         "Required columns: " +:+ join ", " EXCEL_REQUIRED_COLUMNS +:+ nl +:+
         "Found columns: " +:+ join ", " (columns df)))
  end.

(** [_parse_boolean]. *)
Definition _parse_boolean (value : pyval) : bool :=
  match value with
  | PBool b => b
  | PStr s =>
      let value_upper := upper (strip s) in
      match EXCEL_BOOLEAN_MAPPING !! value_upper with
      | Some b => b
      | None =>
          if str_in value_upper ["YES"; "Y"; "1"] then true
          else if str_in value_upper ["NO"; "N"; "0"; ""] then false
          else false
      end
  | PInt _ | PFloat _ => truthy value
  | PNone | PObj _ => false
  end.

(** The guard of [_get_multiple_value]:
    [value is not None and str(value).strip().lower() not in ['nan', '']]. *)
Definition has_indicator (value : pyval) : bool :=
  match value with
  | PNone => false
  | _ => negb (str_in (lower (strip (str value))) ["nan"; ""])
  end.

(** [_get_multiple_value]: the loop over [EXCEL_MULTIPLE_COLUMNS].  The
    assignment [row[col] = value_upper] changes only the row copy that
    [iterrows] handed out, which is not read again, and [_parse_boolean]
    is given [value], not [value_upper]. *)
Fixpoint _get_multiple_value_loop (cols : list string) (row : Series) : bool :=
  match cols with
  | [] => false
  | col :: cols' =>
      if has_column (index row) col then
        let value := series_get row col PNone in
        if has_indicator value then _parse_boolean value
        else _get_multiple_value_loop cols' row
      else _get_multiple_value_loop cols' row
  end.

Definition _get_multiple_value (row : Series) : bool :=
  _get_multiple_value_loop EXCEL_MULTIPLE_COLUMNS row.

(** [key = str(row.get('key', '')).strip()]. *)
Definition row_key (row : Series) : string :=
  strip (str (series_get row EXCEL_COLUMNS_KEY (PStr ""))).

(** The body of the loop of [_parse_dataframe]: [None] is [continue]. *)
Definition parse_row (row : Series) : option Field :=
  let key := row_key row in
  if String.eqb key "" || String.eqb (lower key) "nan" then None
  else Some {|
    f_label := str (series_get row EXCEL_COLUMNS_LABEL (PStr key));
    f_key := key;
    f_multiple := _get_multiple_value row;
    f_note := str (series_get row EXCEL_COLUMNS_NOTE (PStr ""))
  |}.

(** [_parse_dataframe]. *)
Definition _parse_dataframe (df : DataFrame) : result (list Field) :=
  _ ← _validate_columns df;
  Ok (omap parse_row (iterrows df)).

(** [read_fields], given what [pd.read_excel(self.file_path)] did. *)
Definition read_fields (loaded : result DataFrame) : result (list Field) :=
  match df ← loaded; _parse_dataframe df with
  | Ok fields => Ok fields
  | Raise e => Raise (ValueError ("Error reading Excel file: " +:+ exn_str e))
  end.

(** The column [df[col]] paired with the row labels [0, 1, ...]. *)
Definition column_items (df : DataFrame) (col : string) : list (Z * pyval) :=
  match position col (columns df) with
  | Some i => imap (fun idx vals => (Z.of_nat idx, cell_at vals i)) (rows df)
  | None => []
  end.

(** [_validate_multiple_column]. *)
Definition _validate_multiple_column (df : DataFrame) : list string :=
  if negb (has_column (columns df) "multiple") then []
  else
    omap (fun '(idx, value) =>
            if isna value || String.eqb (strip (str value)) "" then None
            else
              let value_str := upper (strip (str value)) in
              if str_in value_str ["TRUE"; "FALSE"] then None
              else Some ("Row " +:+ str (PInt (idx + 2)) +:+
                         ": Invalid 'multiple' value '" +:+ str value +:+
                         "'. Must be TRUE or FALSE."))
         (column_items df "multiple").

(** [re.match(r'^[a-zA-Z0-9_]+$', key)]; keys are stripped, so the [$]
    never meets a final line feed. *)
Definition is_key_char (c : ascii) : bool :=
  is_lower c || is_upper c || is_digit c || Ascii.eqb c "_"%char.

Definition key_format_ok (key : string) : bool :=
  negb (String.eqb key "") && all_chars is_key_char key.

(** [keys.count(key)]. *)
Definition count (key : string) (keys : list string) : nat :=
  length (filter (fun k => String.eqb k key = true) keys).

Record Report : Type := mkReport {
  valid : bool;
  errors : list string;
  warnings : list string
}.

(** The [try] block of [validate_config] after the frame was read: the
    errors and warnings collected, or the exception that left the block
    together with the errors appended before it was raised. *)
Definition validate_body (df : DataFrame)
  : list string * list string * option exn :=
  let errors := _validate_multiple_column df in
  match read_fields (Ok df) with
  | Raise e => (errors, [], Some e)
  | Ok fields =>
      let errors :=
        if (length fields =? 0)%nat
        then errors ++ ["No valid fields found in configuration"]
        else errors in
      let keys := map f_key fields in
      let duplicates := filter (fun key => (1 <? count key keys)%nat = true) keys in
      let errors :=
        match duplicates with
        | [] => errors
        | _ :: _ =>
            errors ++ ["Duplicate field keys found: " +:+
                       join ", " (elements (list_to_set duplicates : gset string))]
        end in
      let empty_labels :=
        map f_key (filter (fun field => String.eqb (strip (f_label field)) "" = true)
                          fields) in
      let warnings :=
        match empty_labels with
        | [] => []
        | _ :: _ => ["Fields with empty labels: " +:+ join ", " empty_labels]
        end in
      let errors :=
        errors ++
        omap (fun field =>
                if key_format_ok (f_key field) then None
                else Some ("Invalid key format '" +:+ f_key field +:+
                           "' - use only letters, numbers, and underscores"))
             fields in
      (errors, warnings, None)
  end.

(** [validate_config], given what [pd.read_excel(self.file_path)] does on
    the configuration file: it is called once here and once more inside
    [read_fields], on the same file. *)
Definition validate_config (loaded : result DataFrame) : Report :=
  let '(errors, warnings, raised) :=
    match loaded with
    | Raise e => ([], [], Some e)
    | Ok df => validate_body df
    end in
  let errors :=
    match raised with
    | Some e => errors ++ ["Validation error: " +:+ exn_str e]
    | None => errors
    end in
  {| valid := (length errors =? 0)%nat; errors := errors; warnings := warnings |}.

(** [get_field_keys]. *)
Definition get_field_keys (loaded : result DataFrame) : result (list string) :=
  fields ← read_fields loaded;
  Ok (map f_key fields).

(** [get_field_by_key]: the first field whose key is [key], or [None]. *)
Definition get_field_by_key (loaded : result DataFrame) (key : string)
  : result (option Field) :=
  fields ← read_fields loaded;
  Ok (List.find (fun field => String.eqb (f_key field) key) fields).

(** [get_multiple_value_fields]. *)
Definition get_multiple_value_fields (loaded : result DataFrame)
  : result (list Field) :=
  fields ← read_fields loaded;
  Ok (filter (fun field => f_multiple field = true) fields).

(** [get_single_value_fields]. *)
Definition get_single_value_fields (loaded : result DataFrame)
  : result (list Field) :=
  fields ← read_fields loaded;
  Ok (filter (fun field => f_multiple field = false) fields).

End ExcelReader.

(* ===================================================================== *)
(** * pathlib names and the output disk *)
(* ===================================================================== *)

Module Path.
Import Py.

(** A path is the list of its parts; [dir / name] appends one part. *)
Definition t : Type := list string.

Definition div (dir : t) (name : string) : t := dir ++ [name].

(** [path.parent]. *)
Definition parent (p : t) : t := removelast p.

(** [str(path)]. *)
Definition to_str (p : t) : string := join "/" p.

(** [name.rfind(c)]. *)
Fixpoint rfind (c : ascii) (s : string) : option nat :=
  match s with
  | EmptyString => None
  | String d s' =>
      match rfind c s' with
      | Some i => Some (S i)
      | None => if Ascii.eqb d c then Some 0%nat else None
      end
  end.

(** [PurePath.suffix]: the text from the last dot on, unless that dot is
    the first or the last character of the name. *)
Definition suffix (name : string) : string :=
  let n := String.length name in
  match rfind "."%char name with
  | Some i =>
      if ((0 <? i) && (i <? n - 1))%nat then String.substring i (n - i) name
      else ""
  | None => ""
  end.

(** [needle in s]. *)
Fixpoint contains (needle s : string) : bool :=
  String.prefix needle s ||
  match s with
  | EmptyString => false
  | String _ s' => contains needle s'
  end.

(** All the ancestors of a path that [mkdir(parents=True)] creates, the
    path itself last. *)
Fixpoint ancestors (p : t) : list t :=
  match p with
  | [] => [[]]
  | part :: p' => [] :: map (cons part) (ancestors p')
  end.

End Path.

Module Disk.

Definition bytes : Type := list byte.

Record t : Type := mk {
  dirs : gset (list string);
  files : gmap (list string) bytes
}.

Definition empty : t := {| dirs := ∅; files := ∅ |}.

(** [folder.mkdir(parents=True, exist_ok=True)]. *)
Definition mkdir_parents (folder : Path.t) (d : t) : t :=
  {| dirs := dirs d ∪ list_to_set (Path.ancestors folder); files := files d |}.

(** Writing (or overwriting) the regular file [p]. *)
Definition write (p : Path.t) (content : bytes) (d : t) : t :=
  {| dirs := dirs d; files := <[p := content]> (files d) |}.

End Disk.

(* ===================================================================== *)
(** * utils/document_filler.py *)
(* ===================================================================== *)

Module DocumentFiller.
Import Py.

Abbreviation bytes := Disk.bytes.

(** A value of the form data: a list of entries, or one scalar. *)
Inductive form_value : Type :=
| FList (items : list pyval)
| FScalar (v : pyval).

(** A value of the docxtpl context. *)
Inductive context_value : Type :=
| CList (items : list string)
| CStr (s : string).

(** The dictionaries [data] and [context], in insertion order. *)
Definition form_data : Type := list (string * form_value).
Definition context : Type := list (string * context_value).

(** What one run of the converter
    [libreoffice --headless --convert-to docx --outdir ... file]
    under [subprocess.run(..., timeout=30)] can do. *)
Inductive conversion : Type :=
| ToolMissing                      (* FileNotFoundError: no such program *)
| TimedOut                         (* subprocess.TimeoutExpired after 30 s *)
| RunError (e : exn)               (* any other exception of the call *)
| Exited (returncode : Z) (produced : option bytes).
                                   (* the process ended; [produced] is the
                                      content of [<stem>.docx] in the
                                      output directory when it exists *)

(** What the filler threads through a batch: the output disk and the
    lines printed so far. *)
Record World : Type := mkWorld {
  disk : Disk.t;
  stdout : list string
}.

Definition print (line : string) (w : World) : World :=
  {| disk := disk w; stdout := stdout w ++ [line] |}.

Definition on_disk (f : Disk.t -> Disk.t) (w : World) : World :=
  {| disk := f (disk w); stdout := stdout w |}.

Record FillResult : Type := mkFillResult {
  success : bool;
  filled_files : list string;
  errors : list string;
  output_folder : string
}.

Section Filler.

(** [DocxTemplate(path)], [doc.render(context)] and the bytes that
    [doc.save] writes, or the exception docxtpl raised. *)
Variable render : bytes -> context -> result bytes.

(** The converter run on a legacy file, given its name and content. *)
Variable libreoffice : string -> bytes -> conversion.

(** The context built at the head of [_fill_docx_file]. *)
Definition build_context (data : form_data) : context :=
  map (fun '(key, value) =>
         match value with
         | FList items =>
             (key, CList (map str (filter (fun item => truthy item = true) items)))
         | FScalar PNone => (key, CStr "")
         | FScalar v => (key, CStr (str v))
         end)
      data.

(** [_fill_docx_file]: render, create the parent of the output path,
    save. *)
Definition _fill_docx_file (template : bytes) (output_path : Path.t)
    (data : form_data) (w : World) : result bool * World :=
  match render template (build_context data) with
  | Raise e => (Raise e, w)
  | Ok doc =>
      let w := on_disk (Disk.mkdir_parents (Path.parent output_path)) w in
      let w := on_disk (Disk.write output_path doc) w in
      (Ok true, w)
  end.

(** [_convert_doc_to_docx]: whether the conversion succeeded, and the
    content of the temporary [.docx] afterwards. *)
Definition _convert_doc_to_docx (name : string) (doc : bytes)
    (temp_docx : bytes) : bool * bytes :=
  match libreoffice name doc with
  | Exited returncode produced =>
      if returncode =? 0 then
        match produced with
        | Some converted => (true, converted)   (* expected_docx.rename(docx_path) *)
        | None => (false, temp_docx)
        end
      else (false, temp_docx)
  | ToolMissing | TimedOut | RunError _ => (false, temp_docx)
  end.

(** [_fill_doc_file].  The temporary file is local to the call and is
    unlinked by the [finally] clause on every way out. *)
Definition _fill_doc_file (name : string) (template : bytes)
    (output_path : Path.t) (data : form_data) (w : World)
  : result bool * World :=
  let temp_docx : bytes := [] in
  let '(converted, temp_docx) := _convert_doc_to_docx name template temp_docx in
  if converted then
    match _fill_docx_file temp_docx output_path data w with
    | (Ok _, w) => (Ok true, w)
    | (Raise e, w) => (Raise e, w)
    end
  else
    let w := print ("Warning: .doc files cannot be filled automatically. Copying "
                    +:+ name +:+ " without filling placeholders.") w in
    let w := print "To fill .doc files, please convert them to .docx format first." w in
    let w := on_disk (Disk.mkdir_parents (Path.parent output_path)) w in
    let w := on_disk (Disk.write output_path template) w in   (* shutil.copy2 *)
    (Ok true, w).

(** [fill_document] for the file [name] of the template directory. *)
Definition fill_document (template_dir : gmap string bytes) (name : string)
    (output_path : Path.t) (data : form_data) (w : World)
  : result bool * World :=
  match template_dir !! name with
  | None => (Raise (FileNotFoundError ("Template document not found: " +:+ name)), w)
  | Some template =>
      let '(r, w) :=
        if String.eqb (lower (Path.suffix name)) ".doc"
        then _fill_doc_file name template output_path data w
        else _fill_docx_file template output_path data w in
      match r with
      | Ok b => (Ok b, w)
      | Raise e => (Raise (Exception ("Error filling document: " +:+ exn_str e)), w)
      end
  end.

(** The state of the loop of [fill_multiple_documents]. *)
Record Batch : Type := mkBatch {
  b_filled : list string;
  b_errors : list string;
  b_world : World
}.

(** [if template_name:] *)
Definition given (template_name : option string) : bool :=
  match template_name with
  | Some n => negb (String.eqb n "")
  | None => false
  end.

(** [f"{timestamp}_{template_name}"], bound only when a name is given. *)
Definition timestamped_folder (timestamp : string)
    (template_name : option string) : string :=
  timestamp +:+ "_" +:+ default "" template_name.

(** One turn of the loop over [docx_files]. *)
Definition fill_one (template_dir : gmap string bytes) (output_folder : Path.t)
    (data : form_data) (timestamp : string) (template_name : option string)
    (st : Batch) (docx_file : string) : Batch :=
  if startswith docx_file "~$" then st
  else
    match template_dir !! docx_file with
    | None =>
        {| b_filled := b_filled st;
           b_errors := b_errors st ++ ["Template not found: " +:+ docx_file];
           b_world := b_world st |}
    | Some _ =>
        let output_path := Path.div output_folder docx_file in
        match fill_document template_dir docx_file output_path data (b_world st) with
        | (Ok _, w) =>
            {| b_filled :=
                 b_filled st ++
                 [if given template_name
                  then timestamped_folder timestamp template_name +:+ "/" +:+ docx_file
                  else docx_file];
               b_errors := b_errors st;
               b_world := w |}
        | (Raise e, w) =>
            {| b_filled := b_filled st;
               b_errors := b_errors st ++
                           ["Error filling " +:+ docx_file +:+ ": " +:+ exn_str e];
               b_world := w |}
        end
    end.

(** [fill_multiple_documents].  [now] is the reading of the clock,
    formatted ["%Y-%m-%d_%H-%M-%S"], used when no timestamp is passed. *)
Definition fill_multiple_documents (template_dir : gmap string bytes)
    (output_dir : Path.t) (docx_files : list string) (data : form_data)
    (timestamp : option string) (template_name : option string)
    (now : string) (w : World) : FillResult * World :=
  let timestamp := default now timestamp in
  let output_folder :=
    if given template_name
    then Path.div output_dir (timestamped_folder timestamp template_name)
    else output_dir in
  let w := on_disk (Disk.mkdir_parents output_folder) w in
  let st :=
    foldl (fill_one template_dir output_folder data timestamp template_name)
          {| b_filled := []; b_errors := []; b_world := w |}
          docx_files in
  ({| success := (0 <? length (b_filled st))%nat;
      filled_files := b_filled st;
      errors := b_errors st;
      output_folder := Path.to_str output_folder |},
   b_world st).

End Filler.

End DocumentFiller.

(* ===================================================================== *)
(** * app.py: template folders *)
(* ===================================================================== *)

Module App.
Import Py ExcelConstants ExcelReader.

(** A template folder: the names of its files in the order the directory
    lists them, and what [pd.read_excel] does on each of them. *)
Record TemplateFolder : Type := mkTemplateFolder {
  entries : list string;
  read_excel : string -> result DataFrame
}.

(** The glob patterns the application uses; [*] also matches names that
    start with a dot, and matching is case-sensitive. *)
Inductive pattern : Type :=
| StarSuffix (ext : string)       (* "*.xlsx", "*.xls", "*.docx", "*.doc" *)
| StarInfixStar (mid : string).   (* "*.doc*" *)

Definition matches (p : pattern) (name : string) : bool :=
  match p with
  | StarSuffix ext => endswith name ext
  | StarInfixStar mid => Path.contains mid name
  end.

(** [folder.glob(pattern)]. *)
Definition glob (folder : TemplateFolder) (p : pattern) : list string :=
  filter (fun name => matches p name = true) (entries folder).

(** [find_config_file] on an existing directory. *)
Definition find_config_file (folder : TemplateFolder) : option string :=
  if str_in DEFAULT_CONFIG_EXCEL_FILENAME (entries folder)
  then Some DEFAULT_CONFIG_EXCEL_FILENAME
  else
    match glob folder (StarSuffix ".xlsx") with
    | f :: _ => Some f
    | [] =>
        match glob folder (StarSuffix ".xls") with
        | f :: _ => Some f
        | [] => None
        end
    end.

(** [ExcelConfigReader(config_file)]: [_validate_file] on a file that
    exists. *)
Definition _validate_file (config_file : string) : result unit :=
  if str_in (Path.suffix config_file) [".xlsx"; ".xls"] then Ok tt
  else Raise (ValueError ("File must be Excel format (.xlsx or .xls): " +:+ config_file)).

(** The document list of [get_templates] and [fill_documents]:
    [*.docx] then [*.doc], without the names that start with [~$]. *)
Definition document_files (folder : TemplateFolder) : list string :=
  filter (fun name => startswith name "~$" = false) (glob folder (StarSuffix ".docx")) ++
  filter (fun name => startswith name "~$" = false) (glob folder (StarSuffix ".doc")).

(** The dictionary [validate_template] returns; the early returns carry
    no ['warnings'] entry. *)
Record TemplateReport : Type := mkTemplateReport {
  t_valid : bool;
  t_errors : list string;
  t_warnings : option (list string)
}.

(** [validate_template]; [None] is a template folder that does not
    exist. *)
Definition validate_template (template : option TemplateFolder) : TemplateReport :=
  match template with
  | None =>
      {| t_valid := false; t_errors := ["Template folder not found"];
         t_warnings := None |}
  | Some folder =>
      match find_config_file folder with
      | None =>
          {| t_valid := false;
             t_errors := ["No config.xlsx file found in template folder"];
             t_warnings := None |}
      | Some config_file =>
          match _validate_file config_file with
          | Raise e =>
              {| t_valid := false;
                 t_errors := ["Error validating template: " +:+ exn_str e];
                 t_warnings := None |}
          | Ok _ =>
              let validation := validate_config (read_excel folder config_file) in
              let doc_files := glob folder (StarInfixStar ".doc") in
              let errors :=
                match doc_files with
                | [] => errors validation ++
                        ["No Word documents (.doc or .docx) found in template folder"]
                | _ :: _ => errors validation
                end in
              let doc_files_legacy :=
                filter (fun f => String.eqb (lower (Path.suffix f)) ".doc" = true)
                       doc_files in
              let warnings :=
                match doc_files_legacy with
                | [] => warnings validation
                | _ :: _ =>
                    warnings validation ++
                    ["Found " +:+ str (PInt (Z.of_nat (length doc_files_legacy))) +:+
                     " .doc file(s) - these cannot be filled automatically. " +:+
                     "Convert to .docx for full functionality."]
                end in
              let docx_files :=
                filter (fun f => String.eqb (lower (Path.suffix f)) ".docx" = true)
                       doc_files in
              let errors :=
                match docx_files with
                | [] => errors ++
                        ["No .docx files found - at least one .docx file is " +:+
                         "required for document filling"]
                | _ :: _ => errors
                end in
              {| t_valid := (length errors =? 0)%nat;
                 t_errors := errors;
                 t_warnings := Some warnings |}
          end
      end
  end.

(** [get_template_fields]: the fields of a template that passes
    [validate_template], or the exception, raised again after the line
    that reports it was printed.  The values of a field are strings and a
    boolean, which the conversion to serialisable values leaves alone. *)
Definition get_template_fields (template : option TemplateFolder)
  : result (list Field) * list string :=
  let validation := validate_template template in
  let outcome : result (list Field) :=
    if negb (t_valid validation) then
      let error_message :=
        "Template validation failed:" +:+ nl +:+ join nl (t_errors validation) in
      let error_message :=
        match t_warnings validation with
        | Some ((_ :: _) as ws) =>
            error_message +:+ nl +:+ nl +:+ "Warnings:" +:+ nl +:+ join nl ws
        | _ => error_message
        end in
      Raise (Exception error_message)
    else
      match template with
      | None => Raise (Exception "Config file not found")
      | Some folder =>
          match find_config_file folder with
          | None => Raise (Exception "Config file not found")
          | Some config_file =>
              _ ← _validate_file config_file;
              read_fields (read_excel folder config_file)
          end
      end in
  match outcome with
  | Ok fields => (Ok fields, [])
  | Raise e => (Raise e, ["Error reading template fields: " +:+ exn_str e])
  end.

(** The dictionaries [fill_documents] returns: a failure with a message and
    possibly the errors, or a success with every entry. *)
Inductive fill_reply : Type :=
| FillFailed (message : string) (errors : option (list string))
| FillDone (message : string) (files errors warnings : list string)
           (output_folder : string).

(** [Path(s).name] for a path string without a final slash. *)
Definition basename (s : string) : string :=
  match Path.rfind "/"%char s with
  | Some i => String.substring (S i) (String.length s - S i) s
  | None => s
  end.

(** The four characters that precede [Saved to:] in the message, as the
    bytes of the source file. *)
Definition saved_marker : string :=
  string_of_list_ascii
    (map ascii_of_nat [239; 163; 191; 195; 188; 195; 172; 195; 133]%nat).

(** The note attached for a file whose name ends with [.doc]. *)
Definition legacy_note (f : string) : string :=
  "Note: " +:+ f +:+ " is a .doc file and cannot be filled automatically. " +:+
  "Please convert to .docx format for full functionality.".

(** [fill_documents].  [template] is the listing of the template folder
    ([None] when it does not exist), [template_dir] its files, and
    [timestamp] the reading of the clock, formatted. *)
Definition fill_documents
    (render : Disk.bytes -> DocumentFiller.context -> result Disk.bytes)
    (libreoffice : string -> Disk.bytes -> DocumentFiller.conversion)
    (template : option TemplateFolder) (template_dir : gmap string Disk.bytes)
    (output_dir : Path.t) (template_name : string)
    (form_data : DocumentFiller.form_data) (timestamp : string)
    (w : DocumentFiller.World) : fill_reply * DocumentFiller.World :=
  match template with
  | None => (FillFailed "Template folder not found" None, w)
  | Some folder =>
      let all_doc_files := document_files folder in
      match all_doc_files with
      | [] => (FillFailed "No Word documents found in template folder" None, w)
      | _ :: _ =>
          let '(result, w) :=
            DocumentFiller.fill_multiple_documents render libreoffice template_dir
              output_dir all_doc_files form_data (Some timestamp)
              (Some template_name) timestamp w in
          let doc_files := filter (fun f => endswith f ".doc" = true) all_doc_files in
          let warnings := map legacy_note doc_files in
          if DocumentFiller.success result then
            let filled := DocumentFiller.filled_files result in
            let errs := DocumentFiller.errors result in
            let message :=
              "Successfully filled " +:+ str (PInt (Z.of_nat (length filled))) +:+
              " document(s)" in
            let message :=
              match errs with
              | [] => message
              | _ :: _ => message +:+ " with " +:+
                          str (PInt (Z.of_nat (length errs))) +:+ " error(s)"
              end in
            let output_folder := DocumentFiller.output_folder result in
            let message :=
              if String.eqb output_folder "" then message
              else message +:+ "<br><br>" +:+ saved_marker +:+
                   " Saved to: <strong>" +:+ basename output_folder +:+ "</strong>" in
            (FillDone message filled errs warnings output_folder, w)
          else
            (FillFailed "Failed to fill documents" (Some (DocumentFiller.errors result)), w)
      end
  end.

(** An entry of the output directory: its name, whether it is a
    directory, and its [st_ctime] (a finite float, taken as the rational
    it denotes). *)
Record DirEntry : Type := mkDirEntry {
  e_name : string;
  e_is_dir : bool;
  e_ctime : QArith_base.Q
}.

(** One dictionary of [get_output_folders]. *)
Record OutputFolder : Type := mkOutputFolder {
  o_name : string;
  o_created_at : QArith_base.Q;
  o_path : string
}.

(** [folders.sort(key=created_at, reverse=True)]: the sort is stable, so
    its result is the one of inserting the folders from the last to the
    first, each before the first folder that is not newer than it. *)
Fixpoint insert_newest (x : OutputFolder) (l : list OutputFolder)
  : list OutputFolder :=
  match l with
  | [] => [x]
  | y :: l' =>
      if QArith_base.Qle_bool (o_created_at y) (o_created_at x) then x :: l
      else y :: insert_newest x l'
  end.

Definition sort_newest_first (l : list OutputFolder) : list OutputFolder :=
  foldr insert_newest [] l.

(** [get_output_folders]; the listing is [None] when the output directory
    does not exist. *)
Definition get_output_folders (output_dir : Path.t)
    (listing : option (list DirEntry)) : list OutputFolder :=
  match listing with
  | None => []
  | Some items =>
      sort_newest_first
        (map (fun item =>
                {| o_name := e_name item;
                   o_created_at := e_ctime item;
                   o_path := Path.to_str (Path.div output_dir (e_name item)) |})
             (filter (fun item => e_is_dir item = true) items))
  end.

(** [s.split(sep, maxsplit)] for a separator of one character. *)
Fixpoint split_char (sep : ascii) (maxsplit : nat) (s : string) : list string :=
  match s with
  | EmptyString => [""]
  | String c s' =>
      match maxsplit with
      | S m =>
          if Ascii.eqb c sep then "" :: split_char sep m s'
          else match split_char sep maxsplit s' with
               | part :: parts => String c part :: parts
               | [] => [String c ""]
               end
      | O => [s]
      end
  end.

(** [s.replace(old, new)] for single characters. *)
Definition replace_char (old new : ascii) (s : string) : string :=
  map_string (fun c => if Ascii.eqb c old then new else c) s.

(** [folders[:limit]]. *)
Definition slice_to {A} (limit : Z) (l : list A) : list A :=
  if 0 <=? limit then take (Z.to_nat limit) l
  else take (length l - Z.to_nat (- limit)) l.

(** One dictionary of [get_latest_output_folders]. *)
Record LatestFolder : Type := mkLatestFolder {
  l_name : string;
  l_template_name : string;
  l_created_date : string;
  l_path : string
}.

(** The body of the loop of [get_latest_output_folders].  [reformat s] is
    [datetime.strptime(s, "%Y-%m-%d %H:%M:%S").strftime("%Y-%m-%d %H:%M:%S")],
    or [None] when [strptime] raises [ValueError]. *)
Definition format_folder (reformat : string -> option string)
    (folder : OutputFolder) : LatestFolder :=
  let folder_name := o_name folder in
  let parts := split_char "_" 2 folder_name in
  match parts with
  | date_part :: time_part :: rest =>
      let template_name :=
        match rest with
        | t :: _ => t
        | [] => "Unknown Template"
        end in
      let timestamp_str := date_part +:+ " " +:+ replace_char "-" ":" time_part in
      let formatted_date := default folder_name (reformat timestamp_str) in
      {| l_name := folder_name; l_template_name := template_name;
         l_created_date := formatted_date; l_path := o_path folder |}
  | _ =>
      {| l_name := folder_name; l_template_name := folder_name;
         l_created_date := "Unknown Date"; l_path := o_path folder |}
  end.

(** [get_latest_output_folders]. *)
Definition get_latest_output_folders (reformat : string -> option string)
    (output_dir : Path.t) (listing : option (list DirEntry)) (limit : Z)
  : list LatestFolder :=
  map (format_folder reformat) (slice_to limit (get_output_folders output_dir listing)).

End App.

(* ===================================================================== *)
(** * Vocabulary of the specification *)
(* ===================================================================== *)

Module Spec.
Import Py ExcelConstants ExcelReader DocumentFiller.

(** A string of white space only, and one without any. *)
Definition blank (s : string) : Prop := all_chars is_space s = true.
Definition spaceless (s : string) : Prop :=
  all_chars (fun c => negb (is_space c)) s = true.


(** Both required columns are among the columns of the frame. *)
Definition has_required_columns (df : DataFrame) : Prop :=
  In "label" (columns df) /\ In "key" (columns df).

(** The row [vals] of a frame with the columns [cols]. *)
Definition row_of (cols : list string) (vals : list pyval) : Series :=
  {| index := cols; values := vals |}.

(** The cell of a row in a column, [None] when the row has no such
    column. *)
Definition cell (row : Series) (col : string) : option pyval :=
  match position col (index row) with
  | Some i => Some (cell_at (values row) i)
  | None => None
  end.

(** The key of a row: its key cell, stringified and trimmed. *)
Definition key_of (row : Series) : option string :=
  c ← cell row "key"; Some (strip (str c)).

(** A key that stands for a missing cell: empty, or the letters n, a, n in
    any case. *)
Definition key_missing (key : string) : Prop :=
  key = "" \/ lower key = "nan".

#[global] Instance key_missing_dec key : Decision (key_missing key).
Proof. unfold key_missing. apply _. Defined.

(** The same with the sentinel as the literal string ["nan"] only. *)
Definition key_missing_literal (key : string) : Prop :=
  key = "" \/ key = "nan".

(** A row that carries a key. *)
Definition keeps_row (row : Series) : Prop :=
  match key_of row with
  | Some key => ~ key_missing key
  | None => False
  end.

#[global] Instance keeps_row_dec row : Decision (keeps_row row).
Proof. unfold keeps_row. destruct (key_of row); apply _. Defined.

(** What [read_fields] returns for the rows [rws] under the header [cols]. *)
Definition read_rows (cols : list string) (rws : list (list pyval))
  : result (list Field) :=
  read_fields (Ok {| columns := cols; rows := rws |}).

(** The skip rule of the reader, for a given notion of a missing key: in a
    frame with both required columns, a row between the rows [pre] and
    [post] adds nothing to the fields of [pre] followed by those of [post]
    when its key is missing, and adds one descriptor carrying its key
    otherwise. *)
Definition rows_skipped_by (missing : string -> Prop) : Prop :=
  forall cols pre r post,
    In "label" cols -> In "key" cols ->
    exists fs_pre fs_post key contribution,
      read_rows cols pre = Ok fs_pre /\
      read_rows cols post = Ok fs_post /\
      key_of (row_of cols r) = Some key /\
      read_rows cols (pre ++ r :: post) = Ok (fs_pre ++ contribution ++ fs_post) /\
      (missing key -> contribution = []) /\
      (~ missing key -> exists d, contribution = [d] /\ f_key d = key).

(** An error of the report that announces duplicate keys. *)
Definition is_duplicate_error (e : string) : Prop :=
  startswith e "Duplicate field keys found: " = true.

#[global] Instance is_duplicate_error_dec e : Decision (is_duplicate_error e).
Proof. unfold is_duplicate_error. apply _. Defined.

(** A cell without an indicator: [None], or blank or nan once stringified,
    trimmed and put in lower case. *)
Definition empty_cell (v : pyval) : Prop :=
  v = PNone \/ In (lower (strip (str v))) ["nan"; ""].

(** The reading of the indicator in which the column [multiple], once
    present, decides alone: its cell is parsed, an empty cell giving
    false. *)
Definition multiple_column_decides_alone : Prop :=
  forall row c,
    cell row "multiple" = Some c ->
    (empty_cell c -> _get_multiple_value row = false) /\
    (~ empty_cell c -> _get_multiple_value row = _parse_boolean c).

(** A letter, a digit or the underscore. *)
Definition word_char (c : ascii) : Prop :=
  let n := nat_of_ascii c in
  (97 <= n <= 122)%nat \/ (65 <= n <= 90)%nat \/ (48 <= n <= 57)%nat \/ n = 95%nat.

(** A key that can serve as a placeholder: not empty, word characters
    only. *)
Definition identifier (key : string) : Prop :=
  key <> "" /\ Forall word_char (list_ascii_of_string key).

(** A cell the strict check of the column [multiple] lets pass: missing,
    blank, or TRUE or FALSE in any letter case. *)
Definition indicator_cell_ok (c : pyval) : Prop :=
  isna c = true \/ strip (str c) = "" \/ In (upper (strip (str c))) ["TRUE"; "FALSE"].

(** The error of the strict check for the cell [c] at row label [i]. *)
Definition indicator_error (i : nat) (c : pyval) : string :=
  "Row " +:+ str (PInt (Z.of_nat i + 2)) +:+ ": Invalid 'multiple' value '" +:+
  str c +:+ "'. Must be TRUE or FALSE.".

(** The error for a key that is not an identifier. *)
Definition key_format_error (key : string) : string :=
  "Invalid key format '" +:+ key +:+ "' - use only letters, numbers, and underscores".

Definition is_key_format_error (e : string) : Prop :=
  startswith e "Invalid key format '" = true.

#[global] Instance is_key_format_error_dec e : Decision (is_key_format_error e).
Proof. unfold is_key_format_error. apply _. Defined.

(** A name the folder check counts as a document, and one it counts as a
    document of the modern or of the legacy format. *)
Definition is_document (name : string) : Prop :=
  Path.contains ".doc" name = true.
Definition is_modern (name : string) : Prop :=
  is_document name /\ lower (Path.suffix name) = ".docx".
Definition is_legacy (name : string) : Prop :=
  is_document name /\ lower (Path.suffix name) = ".doc".

(** The two errors of the folder check about documents. *)
Definition no_documents_error : string :=
  "No Word documents (.doc or .docx) found in template folder".
Definition no_docx_error : string :=
  "No .docx files found - at least one .docx file is required for document filling".

(** [a] was created no earlier than [b]. *)
Definition not_older (a b : App.OutputFolder) : Prop :=
  QArith_base.Qle (App.o_created_at b) (App.o_created_at a).

(** A string without the character [c]. *)
Definition free_of (c : ascii) (s : string) : Prop :=
  all_chars (fun d => negb (Ascii.eqb d c)) s = true.

(** The ways a conversion can fail: no converter, the timeout, another
    exception of the call, a nonzero exit status, or no converted file. *)
Definition conversion_failed (c : conversion) : Prop :=
  c = ToolMissing \/ c = TimedOut \/ (exists e, c = RunError e) \/
  (exists rc produced, c = Exited rc produced /\ rc <> 0) \/
  (exists rc, c = Exited rc None).

(** The folder a batch writes to: [output_dir / "{timestamp}_{name}"] when
    a template name is given, [output_dir] itself otherwise. *)
Definition output_folder_of (output_dir : Path.t) (timestamp : string)
    (template_name : option string) : Path.t :=
  match template_name with
  | Some name =>
      if String.eqb name "" then output_dir
      else output_dir ++ [timestamp +:+ "_" +:+ name]
  | None => output_dir
  end.

(** The path reported in [filled_files] for a file that was produced. *)
Definition reported_path (timestamp : string) (template_name : option string)
    (docx_file : string) : string :=
  match template_name with
  | Some name =>
      if String.eqb name "" then docx_file
      else (timestamp +:+ "_" +:+ name) +:+ "/" +:+ docx_file
  | None => docx_file
  end.

(** The first of the two lines printed when a legacy file is copied. *)
Definition copy_warning (docx_file : string) : string :=
  "Warning: .doc files cannot be filled automatically. Copying " +:+ docx_file +:+
  " without filling placeholders.".

(** The bytes handed to the renderer for a file: the file itself for the
    modern format, the converted copy for a legacy file whose conversion
    ended with status 0 and produced a file, nothing otherwise. *)
Definition rendered_source (libreoffice : string -> Disk.bytes -> conversion)
    (docx_file : string) (template : Disk.bytes) : option Disk.bytes :=
  if String.eqb (lower (Path.suffix docx_file)) ".doc" then
    match libreoffice docx_file template with
    | Exited 0 (Some converted) => Some converted
    | _ => None
    end
  else Some template.

(** A world in which nothing was written or printed yet. *)
Definition fresh : World := {| disk := Disk.empty; stdout := [] |}.

(** What one file adds to [filled_files] and to [errors], read off one turn
    of the loop started on empty lists. *)
Definition contribution (render : Disk.bytes -> context -> result Disk.bytes)
    (libreoffice : string -> Disk.bytes -> conversion)
    (template_dir : gmap string Disk.bytes) (data : form_data)
    (timestamp : string) (template_name : option string) (docx_file : string)
  : list string * list string :=
  let st := fill_one render libreoffice template_dir [] data timestamp template_name
              {| b_filled := []; b_errors := []; b_world := fresh |} docx_file in
  (b_filled st, b_errors st).

End Spec.

(* ===================================================================== *)
(** * Sample inputs *)
(* ===================================================================== *)

Module Examples.
Import Py ExcelReader.

(** A configuration with the two rows of the end-to-end scenario. *)
Definition df_client_items : DataFrame :=
  {| columns := ["label"; "key"; "multiple"];
     rows := [[PStr "Client"; PStr "client_name"; PFloat NaN];
              [PStr "Items"; PStr "items"; PStr "TRUE"]] |}.


(** A row whose key cell holds the text NAN. *)
Definition df_upper_nan : DataFrame :=
  {| columns := ["label"; "key"];
     rows := [[PStr "Name"; PStr "NAN"]] |}.

(** The key [client_name] three times and the key [items] twice. *)
Definition df_duplicates : DataFrame :=
  {| columns := ["label"; "key"];
     rows := [[PStr "Client"; PStr "client_name"];
              [PStr "Items"; PStr "items"];
              [PStr "Client 2"; PStr "client_name"];
              [PStr "Items 2"; PStr "items"];
              [PStr "Client 3"; PStr "client_name"]] |}.

(** A row with a blank [multiple] cell and TRUE in the column [type]. *)
Definition row_blank_multiple_true_type : Series :=
  {| index := ["label"; "key"; "multiple"; "type"];
     values := [PStr "Items"; PStr "items"; PFloat NaN; PStr "TRUE"] |}.

(** A row with [no] in the column [multiple] and TRUE in the column
    [type]. *)
Definition row_no_multiple_true_type : Series :=
  {| index := ["label"; "key"; "multiple"; "type"];
     values := [PStr "Items"; PStr "items"; PStr "no"; PStr "TRUE"] |}.

(** A template folder with a two-row configuration and, as its only
    document, the lock file a word processor leaves next to [report.docx]. *)
Definition folder_lock_file_only : App.TemplateFolder :=
  {| App.entries := ["config.xlsx"; "~$report.docx"];
     App.read_excel := fun name =>
       if String.eqb name "config.xlsx" then Ok df_client_items
       else Raise (Exception "not a spreadsheet") |}.

(** A row whose label cell is blank. *)
Definition df_blank_label : DataFrame :=
  {| columns := ["label"; "key"];
     rows := [[PFloat NaN; PStr "client_name"]] |}.

(** A renderer that rejects an empty file and otherwise returns the
    template followed by one byte. *)
Definition sample_render (template : Disk.bytes) (ctx : DocumentFiller.context)
  : result Disk.bytes :=
  match template with
  | [] => Raise (Exception "Package not found")
  | _ :: _ => Ok (template ++ [x00])
  end.

(** A machine without the converter. *)
Definition no_converter (name : string) (doc : Disk.bytes)
  : DocumentFiller.conversion :=
  DocumentFiller.ToolMissing.

(** A template directory with one modern and one legacy document. *)
Definition sample_templates : gmap string Disk.bytes :=
  <["report.docx" := [x50; x4b]]> (<["letter.doc" := [xd0; xcf]]> ∅).

(** The arguments shared by the sample batches. *)
Definition sample_batch (docx_files : list string)
  : DocumentFiller.FillResult * DocumentFiller.World :=
  DocumentFiller.fill_multiple_documents sample_render no_converter
    sample_templates ["output"] docx_files [] (Some "2024-05-01_10-00-00")
    (Some "invoice") "2024-05-01_10-00-01"
    {| DocumentFiller.disk := Disk.empty; DocumentFiller.stdout := [] |}.

(** A configuration whose [multiple] column holds YES and whose third key
    has a space. *)
Definition df_loose : DataFrame :=
  {| columns := ["label"; "key"; "multiple"];
     rows := [[PStr "Client"; PStr "client_name"; PStr "FALSE"];
              [PStr "Items"; PStr "items"; PStr "YES"];
              [PStr "Due"; PStr "due date"; PFloat NaN]] |}.

(** A folder with two spreadsheets, none of them named [config.xlsx]. *)
Definition folder_two_sheets : App.TemplateFolder :=
  {| App.entries := ["old.xls"; "fields.xlsx"; "report.docx"];
     App.read_excel := fun _ => Ok df_client_items |}.

(** A folder with a valid configuration, one modern and one legacy
    document, and a lock file. *)
Definition folder_invoice : App.TemplateFolder :=
  {| App.entries := ["config.xlsx"; "report.docx"; "letter.doc"; "~$report.docx"];
     App.read_excel := fun _ => Ok df_client_items |}.

(** A folder with a valid configuration and a legacy document only. *)
Definition folder_legacy_only : App.TemplateFolder :=
  {| App.entries := ["config.xlsx"; "letter.doc"];
     App.read_excel := fun _ => Ok df_client_items |}.

(** An output directory with three folders and a file; the second folder
    is the newest. *)
Definition output_listing : list App.DirEntry :=
  [ {| App.e_name := "2024-05-01_10-00-00_invoice"; App.e_is_dir := true;
       App.e_ctime := QArith_base.Qmake 100 1 |};
    {| App.e_name := "2024-05-03_09-30-00_my_offer"; App.e_is_dir := true;
       App.e_ctime := QArith_base.Qmake 300 1 |};
    {| App.e_name := "notes.txt"; App.e_is_dir := false;
       App.e_ctime := QArith_base.Qmake 400 1 |};
    {| App.e_name := "2024-05-02_08-00-00_invoice"; App.e_is_dir := true;
       App.e_ctime := QArith_base.Qmake 200 1 |} ].

(** The files of the invoice folder. *)
Definition invoice_files : gmap string Disk.bytes :=
  <["config.xlsx" := [x50; x4b; x03]]>
    (<["~$report.docx" := [x0a]]> sample_templates).

(** The sample templates with an empty, hence unreadable, document. *)
Definition broken_templates : gmap string Disk.bytes :=
  <["broken.docx" := []]> sample_templates.


End Examples.

(* ===================================================================== *)
(** * Properties *)
(* ===================================================================== *)

(** ** Strings *)

Section StringFacts.
Import Py Spec.

(** A string of white space only, and one without any. *)
Definition blank (s : string) : Prop := all_chars is_space s = true.
Definition spaceless (s : string) : Prop :=
  all_chars (fun c => negb (is_space c)) s = true.









Lemma str_in_spec x l : str_in x l = true <-> In x l.
Proof.
  unfold str_in. rewrite existsb_exists. split.
  - intros (y & Hy & ->%String.eqb_eq). assumption.
  - intros H. exists x. split; [assumption | apply String.eqb_refl].
Qed.

Lemma prefix_app p s : String.prefix p (p +:+ s) = true.
Proof.
  induction p as [|c p IH]; simpl; [destruct s; reflexivity|].
  destruct (ascii_dec c c); [exact IH | congruence].
Qed.

End StringFacts.

(** ** The lenient boolean parser *)

Section ParseBoolean.
Import Py ExcelConstants ExcelReader Spec.








End ParseBoolean.

(** ** Reading the fields *)

Section ReadFields.
Import Py ExcelConstants ExcelReader Spec.

Lemma position_In col idx : In col idx -> exists i, position col idx = Some i.
Proof.
  induction idx as [|c idx IH]; simpl; [tauto|].
  intros [->|H].
  - rewrite String.eqb_refl. eauto.
  - destruct (String.eqb c col); [eauto|].
    destruct (IH H) as [i ->]. simpl. eauto.
Qed.

Lemma position_not_In col idx : ~ In col idx -> position col idx = None.
Proof.
  induction idx as [|c idx IH]; simpl; [reflexivity|].
  intros H. destruct (String.eqb_spec c col) as [->|_]; [tauto|].
  rewrite IH by tauto. reflexivity.
Qed.

Lemma has_column_In idx col : has_column idx col = true <-> In col idx.
Proof. apply str_in_spec. Qed.

Lemma has_column_not_In idx col : has_column idx col = false <-> ~ In col idx.
Proof. rewrite <- has_column_In. destruct (has_column idx col); intuition congruence. Qed.

(** With the column present, [row.get] never falls back on its default. *)
Lemma series_get_present row col default :
  In col (index row) -> cell row col = Some (series_get row col default).
Proof.
  intros H. unfold cell, series_get.
  destruct (position_In _ _ H) as [i ->]. reflexivity.
Qed.

Lemma key_of_row_key row :
  In "key" (index row) -> key_of row = Some (row_key row).
Proof.
  intros H. unfold key_of, row_key, EXCEL_COLUMNS_KEY.
  rewrite (series_get_present row "key" (PStr "") H). reflexivity.
Qed.

Lemma validate_columns_ok df :
  has_required_columns df -> _validate_columns df = Ok tt.
Proof.
  intros [Hl Hk].
  unfold _validate_columns, EXCEL_REQUIRED_COLUMNS, EXCEL_COLUMNS_LABEL, EXCEL_COLUMNS_KEY.
  rewrite filter_cons_False, filter_cons_False, filter_nil; [reflexivity| |].
  - rewrite (proj2 (has_column_In _ _) Hk). discriminate.
  - rewrite (proj2 (has_column_In _ _) Hl). discriminate.
Qed.

Lemma validate_columns_missing df :
  ~ has_required_columns df -> exists msg, _validate_columns df = Raise (ValueError msg).
Proof.
  intros Hn. unfold _validate_columns.
  destruct (filter _ EXCEL_REQUIRED_COLUMNS) as [|c l] eqn:E; [|eauto].
  exfalso. apply Hn.
  unfold EXCEL_REQUIRED_COLUMNS, EXCEL_COLUMNS_LABEL, EXCEL_COLUMNS_KEY in E.
  split; apply has_column_In.
  - destruct (has_column (columns df) "label") eqn:Hl; [reflexivity|].
    rewrite filter_cons_True in E by exact Hl. discriminate.
  - destruct (has_column (columns df) "key") eqn:Hk; [reflexivity|].
    rewrite filter_cons in E. destruct (decide _); [discriminate|].
    rewrite filter_cons_True in E by exact Hk. discriminate.
Qed.

(** With both columns, the reader returns the rows that pass the loop. *)
Lemma read_fields_rows df :
  has_required_columns df ->
  read_fields (Ok df) = Ok (omap parse_row (iterrows df)).
Proof.
  intros H. unfold read_fields, _parse_dataframe. simpl.
  rewrite (validate_columns_ok df H). reflexivity.
Qed.

(** A file that [pd.read_excel] cannot read makes the reader raise a
    [ValueError] too. *)
Lemma read_fields_unreadable e :
  read_fields (Raise e)
  = Raise (ValueError ("Error reading Excel file: " +:+ exn_str e)).
Proof. reflexivity. Qed.

Lemma parse_row_None row : parse_row row = None <-> key_missing (row_key row).
Proof.
  unfold parse_row, key_missing.
  destruct (String.eqb_spec (row_key row) "") as [E|E];
    destruct (String.eqb_spec (lower (row_key row)) "nan") as [E'|E'];
    simpl; intuition congruence.
Qed.

Lemma parse_row_Some row d : parse_row row = Some d -> f_key d = row_key row.
Proof.
  unfold parse_row. destruct (_ || _); [discriminate|].
  intros [= <-]. reflexivity.
Qed.

Lemma parse_row_kept row :
  ~ key_missing (row_key row) ->
  exists d, parse_row row = Some d /\ f_key d = row_key row.
Proof.
  intros H. destruct (parse_row row) as [d|] eqn:E.
  - exists d. split; [reflexivity | apply parse_row_Some, E].
  - apply parse_row_None in E. contradiction.
Qed.




Lemma read_rows_ok cols rws :
  In "label" cols -> In "key" cols ->
  read_rows cols rws = Ok (omap parse_row (map (mkSeries cols) rws)).
Proof.
  intros Hl Hk. unfold read_rows. rewrite read_fields_rows; [reflexivity|].
  split; assumption.
Qed.

(** The skip rule holds for the reader's own test of a missing key. *)
Lemma reader_skip_rule : rows_skipped_by key_missing.
Proof.
  intros cols pre r post Hl Hk.
  set (row := row_of cols r).
  exists (omap parse_row (map (mkSeries cols) pre)),
         (omap parse_row (map (mkSeries cols) post)),
         (row_key row),
         (match parse_row row with Some d => [d] | None => [] end).
  rewrite !read_rows_ok by assumption.
  split; [reflexivity|]. split; [reflexivity|].
  split; [apply key_of_row_key, Hk|].
  split.
  - rewrite map_app, omap_app. subst row. unfold row_of. simpl.
    destruct (parse_row _); reflexivity.
  - split.
    + intros Hm. apply parse_row_None in Hm. rewrite Hm. reflexivity.
    + intros Hm. destruct (parse_row_kept row Hm) as (d & -> & Hd). eauto.
Qed.

(** C4 (as amended).  In a frame with both required columns the reader
    takes key = trim(stringify(key cell)) for each row and leaves the row
    out exactly when that key is empty or is the word nan in any letter
    case; every other row yields one descriptor carrying that key, at the
    place of the row; and two reads of the same spreadsheet return the same
    list. *)
Theorem C4_rows_skipped_on_missing_key :
  rows_skipped_by key_missing
  /\ (forall loaded,
        let first := read_fields loaded in
        let second := read_fields loaded in
        first = second).
Proof.
  split; [exact reader_skip_rule | reflexivity].
Qed.

(** The theorem at the row [Items / items] placed after and before a row
    [Client / client_name]. *)
Lemma C4_rows_skipped_on_missing_key_witness :
  exists fs_pre fs_post key contribution,
    read_rows ["label"; "key"] [[PStr "Client"; PStr "client_name"]] = Ok fs_pre /\
    read_rows ["label"; "key"] [[PStr "Client"; PStr "client_name"]] = Ok fs_post /\
    key_of (row_of ["label"; "key"] [PStr "Items"; PStr " items "]) = Some key /\
    read_rows ["label"; "key"]
      ([[PStr "Client"; PStr "client_name"]] ++
       [PStr "Items"; PStr " items "] :: [[PStr "Client"; PStr "client_name"]])
    = Ok (fs_pre ++ contribution ++ fs_post) /\
    (key_missing key -> contribution = []) /\
    (~ key_missing key -> exists d, contribution = [d] /\ f_key d = key).
Proof.
  apply (proj1 C4_rows_skipped_on_missing_key ["label"; "key"]
           [[PStr "Client"; PStr "client_name"]]
           [PStr "Items"; PStr " items "]
           [[PStr "Client"; PStr "client_name"]]); simpl; tauto.
Defined.

(** The text NAN in the key cell: the key is neither empty nor the string
    nan, and the row is left out all the same. *)
Example upper_nan_row_is_skipped :
  key_of (row_of ["label"; "key"] [PStr "Name"; PStr "NAN"]) = Some "NAN"
  /\ ~ key_missing_literal "NAN"
  /\ read_fields (Ok Examples.df_upper_nan) = Ok [].
Proof.
  split; [reflexivity|]. split; [|reflexivity].
  unfold key_missing_literal. intuition discriminate.
Qed.

(** C4 (as stated) fails: with the sentinel taken as the literal string
    ["nan"], the skip rule is refuted by a row whose key cell reads NAN. *)
Lemma C4_literal_nan_counterexample : ~ rows_skipped_by key_missing_literal.
Proof.
  intros H.
  destruct (H ["label"; "key"] [] [PStr "Name"; PStr "NAN"] [])
    as (fs_pre & fs_post & key & contribution & Hpre & Hpost & Hkey & Hall & _ & Hkept);
    [simpl; tauto | simpl; tauto |].
  destruct upper_nan_row_is_skipped as (Hk & Hlit & Hread).
  rewrite Hk in Hkey. injection Hkey as <-.
  destruct (Hkept Hlit) as (d & -> & _).
  vm_compute in Hpre, Hpost, Hall.
  injection Hpre as <-. injection Hpost as <-. discriminate Hall.
Qed.

(** C5 at a blank label cell: the label read is the text nan, not the key
    of the row. *)
Theorem C5_blank_label_reads_nan :
  read_fields (Ok Examples.df_blank_label)
  = Ok [{| f_label := "nan"; f_key := "client_name";
           f_multiple := false; f_note := "" |}]
  /\ "nan" <> "client_name".
Proof. split; [reflexivity | discriminate]. Qed.

End ReadFields.

(** ** Validating the configuration *)

Section ValidateConfig.
Import Py ExcelConstants ExcelReader Spec.

Lemma filter_none {A} (P : A -> Prop) `{forall x, Decision (P x)} (l : list A) :
  (forall x, x ∈ l -> ~ P x) -> filter P l = [].
Proof.
  induction l as [|a l IH]; intros Hl; [reflexivity|].
  rewrite filter_cons_False by (apply Hl; left).
  apply IH. intros x Hx. apply Hl. right. exact Hx.
Qed.

Lemma count_count_occ key keys : count key keys = count_occ string_dec keys key.
Proof.
  unfold count. induction keys as [|k keys IH]; [reflexivity|].
  rewrite filter_cons. simpl count_occ.
  destruct (string_dec k key) as [->|Hne].
  - rewrite decide_True by apply String.eqb_refl. simpl. congruence.
  - rewrite decide_False; [exact IH|]. rewrite String.eqb_eq. exact Hne.
Qed.

(** The comprehension [duplicates] is empty only when no key repeats. *)
Lemma no_duplicates_NoDup (keys : list string) :
  filter (fun key => (1 <? count key keys)%nat = true) keys = [] -> NoDup keys.
Proof.
  intros E. apply NoDup_ListNoDup, (NoDup_count_occ string_dec). intros x.
  destruct (in_dec string_dec x keys) as [Hin|Hout].
  - apply list_elem_of_In in Hin.
    pose proof (filter_nil_not_elem_of _ _ x E) as Hx.
    destruct (1 <? count x keys)%nat eqn:Hc.
    + exfalso. apply Hx; [exact Hc | exact Hin].
    + apply Nat.ltb_ge in Hc. rewrite <- count_count_occ. exact Hc.
  - apply (count_occ_not_In string_dec) in Hout. lia.
Qed.

Lemma multiple_errors_not_duplicate df e :
  e ∈ _validate_multiple_column df -> ~ is_duplicate_error e.
Proof.
  unfold _validate_multiple_column.
  destruct (negb _); [intros H; inversion H|].
  intros ((idx & value) & _ & Hx)%list_elem_of_omap.
  destruct (_ || _); [discriminate|].
  destruct (str_in _ _); [discriminate|].
  injection Hx as <-. unfold is_duplicate_error. discriminate.
Qed.

Lemma key_errors_not_duplicate (fields : list Field) e :
  e ∈ omap (fun field =>
              if key_format_ok (f_key field) then None
              else Some ("Invalid key format '" +:+ f_key field +:+
                         "' - use only letters, numbers, and underscores"))
           fields ->
  ~ is_duplicate_error e.
Proof.
  intros (field & _ & Hx)%list_elem_of_omap.
  destruct (key_format_ok _); [discriminate|].
  injection Hx as <-. unfold is_duplicate_error. discriminate.
Qed.

(** C6.  When the fields read from a configuration repeat a key, the
    report of [validate_config] holds exactly one duplicate-key error,
    however many rows share a key: the message lists, separated by commas
    and each once, the keys that occur more than once. *)
Theorem C6_one_duplicate_key_error (df : DataFrame) (fields : list Field) :
  read_fields (Ok df) = Ok fields ->
  ~ NoDup (map f_key fields) ->
  exists dups,
    NoDup dups /\
    (forall k, In k dups <-> (1 < count_occ string_dec (map f_key fields) k)%nat) /\
    filter is_duplicate_error (errors (validate_config (Ok df)))
    = ["Duplicate field keys found: " +:+ join ", " dups].
Proof.
  intros Hread Hdup.
  set (keys := map f_key fields).
  set (duplicates := filter (fun key => (1 <? count key keys)%nat = true) keys).
  exists (elements (list_to_set duplicates : gset string)).
  split; [apply NoDup_elements|]. split.
  - intros k. rewrite <- list_elem_of_In, elem_of_elements, elem_of_list_to_set.
    subst duplicates. rewrite list_elem_of_filter, Nat.ltb_lt, count_count_occ.
    split; [tauto|]. intros Hk. split; [exact Hk|].
    apply list_elem_of_In, (count_occ_In string_dec). lia.
  - unfold validate_config, validate_body. rewrite Hread.
    fold keys. fold duplicates.
    destruct duplicates as [|d ds] eqn:Ed.
    { exfalso. apply Hdup, no_duplicates_NoDup, Ed. }
    simpl errors. rewrite !filter_app.
    rewrite (filter_none _ (omap _ fields)) by apply key_errors_not_duplicate.
    rewrite app_nil_r, filter_cons_True, filter_nil by apply prefix_app.
    destruct (length fields =? 0)%nat.
    + rewrite filter_app, (filter_none _ (_validate_multiple_column df))
        by apply multiple_errors_not_duplicate.
      rewrite filter_cons_False by (unfold is_duplicate_error; discriminate).
      reflexivity.
    + rewrite (filter_none _ (_validate_multiple_column df))
        by apply multiple_errors_not_duplicate.
      reflexivity.
Qed.

(** The theorem at a configuration that has [client_name] three times and
    [items] twice. *)
Lemma C6_one_duplicate_key_error_witness :
  exists dups,
    NoDup dups /\
    (forall k, In k dups <->
       (1 < count_occ string_dec
              ["client_name"; "items"; "client_name"; "items"; "client_name"] k)%nat) /\
    filter is_duplicate_error (errors (validate_config (Ok Examples.df_duplicates)))
    = ["Duplicate field keys found: " +:+ join ", " dups].
Proof.
  apply (C6_one_duplicate_key_error Examples.df_duplicates
           [ {| f_label := "Client"; f_key := "client_name";
                f_multiple := false; f_note := "" |};
             {| f_label := "Items"; f_key := "items";
                f_multiple := false; f_note := "" |};
             {| f_label := "Client 2"; f_key := "client_name";
                f_multiple := false; f_note := "" |};
             {| f_label := "Items 2"; f_key := "items";
                f_multiple := false; f_note := "" |};
             {| f_label := "Client 3"; f_key := "client_name";
                f_multiple := false; f_note := "" |} ]).
  - reflexivity.
  - rewrite NoDup_ListNoDup, (NoDup_count_occ string_dec).
    intros H. specialize (H "client_name"). vm_compute in H. lia.
Defined.

(** The report for that configuration: one error, naming each of the two
    repeated keys once. *)
Example duplicates_report :
  errors (validate_config (Ok Examples.df_duplicates))
  = ["Duplicate field keys found: client_name, items"].
Proof. vm_compute. reflexivity. Qed.

End ValidateConfig.

(** ** The indicator for multiple values *)

Section MultipleIndicator.
Import Py ExcelConstants ExcelReader Spec.

Lemma has_indicator_spec v : has_indicator v = false <-> empty_cell v.
Proof.
  unfold has_indicator, empty_cell.
  destruct v; rewrite ?negb_false_iff, ?str_in_spec;
    intuition (try discriminate; try congruence).
Qed.

Lemma has_indicator_true v : has_indicator v = true <-> ~ empty_cell v.
Proof.
  rewrite <- has_indicator_spec. destruct (has_indicator v); intuition congruence.
Qed.

Lemma cell_present row col c :
  cell row col = Some c ->
  has_column (index row) col = true /\ series_get row col PNone = c.
Proof.
  unfold cell, series_get. destruct (position col (index row)) as [i|] eqn:E;
    [|discriminate].
  intros [= <-]. split; [|reflexivity].
  apply has_column_In. destruct (in_dec string_dec col (index row)) as [H|H];
    [exact H|]. rewrite (position_not_In _ _ H) in E. discriminate.
Qed.

Lemma cell_absent row col :
  cell row col = None -> has_column (index row) col = false.
Proof.
  unfold cell. intros H. apply has_column_not_In. intros Hin.
  destruct (position_In _ _ Hin) as [i E]. rewrite E in H. discriminate.
Qed.

(** One turn of the loop: a column that is absent, or whose cell is empty,
    passes the decision on to the columns that follow. *)
Lemma multiple_loop_next col cols row :
  cell row col = None \/ (exists c, cell row col = Some c /\ empty_cell c) ->
  _get_multiple_value_loop (col :: cols) row = _get_multiple_value_loop cols row.
Proof.
  intros [Habs|(c & Hc & He)]; simpl.
  - rewrite (cell_absent _ _ Habs). reflexivity.
  - destruct (cell_present _ _ _ Hc) as [-> ->].
    rewrite (proj2 (has_indicator_spec c) He). reflexivity.
Qed.

Lemma multiple_loop_here col cols row c :
  cell row col = Some c -> ~ empty_cell c ->
  _get_multiple_value_loop (col :: cols) row = _parse_boolean c.
Proof.
  intros Hc He. simpl. destruct (cell_present _ _ _ Hc) as [-> ->].
  rewrite (proj2 (has_indicator_true c) He). reflexivity.
Qed.

(** C7 (as amended).  The indicator of a row is read from the first of the
    columns [multiple], [type], in this order, that is present and whose
    cell in that row is not empty: a filled [multiple] cell decides and the
    column [type] is not consulted; the column [type] is consulted when
    the column [multiple] is absent or its cell in the row is empty; when
    neither column offers a filled cell the indicator is false. *)
Theorem C7_first_filled_indicator_column (row : Series) :
  (forall c, cell row "multiple" = Some c -> ~ empty_cell c ->
     _get_multiple_value row = _parse_boolean c)
  /\ ((cell row "multiple" = None \/
       exists c, cell row "multiple" = Some c /\ empty_cell c) ->
      (forall c', cell row "type" = Some c' -> ~ empty_cell c' ->
         _get_multiple_value row = _parse_boolean c')
      /\ ((cell row "type" = None \/
           exists c', cell row "type" = Some c' /\ empty_cell c') ->
          _get_multiple_value row = false)).
Proof.
  unfold _get_multiple_value, EXCEL_MULTIPLE_COLUMNS,
    EXCEL_COLUMNS_MULTIPLE, EXCEL_COLUMNS_TYPE.
  split.
  - intros c Hc He. apply multiple_loop_here; assumption.
  - intros Hm. rewrite (multiple_loop_next _ _ _ Hm). split.
    + intros c' Hc' He'. apply multiple_loop_here; assumption.
    + intros Ht. rewrite (multiple_loop_next _ _ _ Ht). reflexivity.
Qed.

(** The theorem at a row with [no] under [multiple] and TRUE under [type],
    and at a row with a blank [multiple] cell and TRUE under [type]. *)
Lemma C7_first_filled_indicator_column_witness :
  _get_multiple_value Examples.row_no_multiple_true_type = _parse_boolean (PStr "no")
  /\ _get_multiple_value Examples.row_blank_multiple_true_type
     = _parse_boolean (PStr "TRUE").
Proof.
  split.
  - apply (proj1 (C7_first_filled_indicator_column
                    Examples.row_no_multiple_true_type) (PStr "no")).
    + reflexivity.
    + unfold empty_cell. simpl. intuition discriminate.
  - apply (proj2 (C7_first_filled_indicator_column
                    Examples.row_blank_multiple_true_type)).
    + right. exists (PFloat NaN). split; [reflexivity|].
      unfold empty_cell. simpl. tauto.
    + reflexivity.
    + unfold empty_cell. simpl. intuition discriminate.
Defined.

(** C7 (as stated) fails: with the column [multiple] present and its cell
    blank, TRUE in the column [type] makes the indicator true. *)
Lemma C7_blank_multiple_counterexample : ~ multiple_column_decides_alone.
Proof.
  intros H.
  destruct (H Examples.row_blank_multiple_true_type (PFloat NaN) eq_refl)
    as [Hempty _].
  assert (He : empty_cell (PFloat NaN)) by (unfold empty_cell; simpl; tauto).
  specialize (Hempty He). vm_compute in Hempty. discriminate.
Qed.

End MultipleIndicator.

(** ** Validating a template folder *)

Section ValidateTemplate.
Import Py ExcelConstants ExcelReader App.

(** C8 at a folder whose only document is a lock file [~$report.docx]: the
    configuration is valid, the document list of [get_templates] and
    [fill_documents] is empty, and [validate_template] still reports the
    template as valid, without any error. *)
Theorem C8_lock_file_counts_as_document :
  validate_config (Ok Examples.df_client_items)
  = {| valid := true; errors := []; warnings := [] |}
  /\ document_files Examples.folder_lock_file_only = []
  /\ validate_template (Some Examples.folder_lock_file_only)
     = {| t_valid := true; t_errors := []; t_warnings := Some [] |}.
Proof. vm_compute. repeat split. Qed.

End ValidateTemplate.

(** ** Filling a batch of documents *)

Section FillBatch.
Import Py DocumentFiller Spec.

Variable render : Disk.bytes -> context -> result Disk.bytes.
Variable libreoffice : string -> Disk.bytes -> conversion.

Abbreviation fill_one' := (fill_one render libreoffice).
Abbreviation fill_document' := (fill_document render libreoffice).
Abbreviation batch := (fill_multiple_documents render libreoffice).

Lemma convert_failed name doc temp :
  conversion_failed (libreoffice name doc) ->
  _convert_doc_to_docx libreoffice name doc temp = (false, temp).
Proof.
  unfold _convert_doc_to_docx.
  intros [->|[->|[[e ->]|[(rc & produced & -> & Hrc)|[rc ->]]]]]; try reflexivity.
  - apply Z.eqb_neq in Hrc. rewrite Hrc. reflexivity.
  - destruct (rc =? 0); reflexivity.
Qed.

(** Whether a file gets filled does not depend on the output path nor on
    what was written or printed before. *)
Lemma fill_document_result td name p p' data w w' :
  fst (fill_document' td name p data w) = fst (fill_document' td name p' data w').
Proof.
  unfold fill_document, _fill_doc_file, _fill_docx_file.
  destruct (td !! name) as [tpl|]; [|reflexivity].
  destruct (String.eqb _ ".doc").
  - destruct (_convert_doc_to_docx _ _ _ _) as [[] temp]; [|reflexivity].
    destruct (render temp _); reflexivity.
  - destruct (render tpl _); reflexivity.
Qed.

(** Closes the two halves of a frame goal: files other than the output path
    are as before, and what was printed is extended by some lines. *)
Ltac frame_step :=
  split;
  [ first [ reflexivity
          | let q := fresh "q" in let Hq := fresh "Hq" in
            intros q Hq; apply lookup_insert_ne; congruence ]
  | first [ exists []; symmetry; apply app_nil_r
          | rewrite <- app_assoc; eexists; reflexivity ] ].

(** A call writes no file other than its output path and only adds lines
    to what was printed. *)
Lemma fill_document_frame td name p data w :
  let w' := snd (fill_document' td name p data w) in
  (forall q, q <> p -> Disk.files (disk w') !! q = Disk.files (disk w) !! q)
  /\ (exists lines, stdout w' = stdout w ++ lines).
Proof.
  unfold fill_document, _fill_doc_file, _fill_docx_file.
  destruct (td !! name) as [tpl|]; simpl; [|frame_step].
  destruct (String.eqb _ ".doc").
  - destruct (_convert_doc_to_docx _ _ _ _) as [[] temp]; [|simpl; frame_step].
    destruct (render temp _); simpl; frame_step.
  - destruct (render tpl _); simpl; frame_step.
Qed.

(** One turn of the loop appends the contribution of its file. *)
Lemma fill_one_lists td folder data ts name st f :
  b_filled (fill_one' td folder data ts name st f)
  = b_filled st ++ fst (contribution render libreoffice td data ts name f)
  /\ b_errors (fill_one' td folder data ts name st f)
     = b_errors st ++ snd (contribution render libreoffice td data ts name f).
Proof.
  unfold contribution, fill_one.
  destruct (startswith f "~$"); simpl; [rewrite !app_nil_r; split; reflexivity|].
  destruct (td !! f) as [tpl|] eqn:E; simpl; [|rewrite app_nil_r; split; reflexivity].
  pose proof (fill_document_result td f (Path.div folder f) (Path.div [] f)
                data (b_world st) fresh) as Hr.
  destruct (fill_document' td f (Path.div folder f) data (b_world st)) as [r1 w1].
  destruct (fill_document' td f (Path.div [] f) data fresh) as [r2 w2].
  simpl in Hr. subst r2.
  destruct r1; simpl; rewrite ?app_nil_r; split; reflexivity.
Qed.

Lemma fill_one_frame td folder data ts name st f g :
  g <> f ->
  Disk.files (disk (b_world (fill_one' td folder data ts name st g))) !! Path.div folder f
  = Disk.files (disk (b_world st)) !! Path.div folder f.
Proof.
  intros Hne. unfold fill_one.
  destruct (startswith g "~$"); [reflexivity|].
  destruct (td !! g); [|reflexivity].
  pose proof (fill_document_frame td g (Path.div folder g) data (b_world st)) as [Hf _].
  destruct (fill_document' td g (Path.div folder g) data (b_world st)) as [[] w1];
    simpl in *; apply Hf; unfold Path.div; intros [_ H]%app_inj_tail; congruence.
Qed.

Lemma fill_one_stdout td folder data ts name st f line :
  In line (stdout (b_world st)) ->
  In line (stdout (b_world (fill_one' td folder data ts name st f))).
Proof.
  intros Hin. unfold fill_one.
  destruct (startswith f "~$"); [exact Hin|].
  destruct (td !! f); [|exact Hin].
  pose proof (fill_document_frame td f (Path.div folder f) data (b_world st))
    as [_ [lines Hl]].
  destruct (fill_document' td f (Path.div folder f) data (b_world st)) as [[] w1];
    simpl in *; rewrite Hl; apply in_or_app; left; exact Hin.
Qed.

Lemma foldl_lists td folder data ts name files st :
  let st' := foldl (fill_one' td folder data ts name) st files in
  b_filled st'
  = b_filled st ++ concat (map (fun f => fst (contribution render libreoffice td data ts name f)) files)
  /\ b_errors st'
     = b_errors st ++ concat (map (fun f => snd (contribution render libreoffice td data ts name f)) files).
Proof.
  revert st. induction files as [|f files IH]; intros st; simpl.
  - rewrite !app_nil_r. split; reflexivity.
  - destruct (IH (fill_one' td folder data ts name st f)) as [-> ->].
    destruct (fill_one_lists td folder data ts name st f) as [-> ->].
    rewrite <- !app_assoc. split; reflexivity.
Qed.

Lemma foldl_frame td folder data ts name files st f :
  ~ In f files ->
  Disk.files (disk (b_world (foldl (fill_one' td folder data ts name) st files)))
    !! Path.div folder f
  = Disk.files (disk (b_world st)) !! Path.div folder f.
Proof.
  revert st. induction files as [|g files IH]; intros st Hn; simpl; [reflexivity|].
  rewrite IH by (simpl in Hn; tauto).
  apply fill_one_frame. simpl in Hn. intros ->. tauto.
Qed.

Lemma foldl_stdout td folder data ts name files st line :
  In line (stdout (b_world st)) ->
  In line (stdout (b_world (foldl (fill_one' td folder data ts name) st files))).
Proof.
  revert st. induction files as [|g files IH]; intros st Hin; simpl; [exact Hin|].
  apply IH, fill_one_stdout, Hin.
Qed.

(** The lists of a batch are the contributions of its files, in order. *)
Lemma batch_lists td out files data ts name now w :
  let r := fst (batch td out files data ts name now w) in
  filled_files r
  = concat (map (fun f => fst (contribution render libreoffice td data (default now ts) name f)) files)
  /\ errors r
     = concat (map (fun f => snd (contribution render libreoffice td data (default now ts) name f)) files)
  /\ success r = (0 <? length (filled_files r))%nat.
Proof.
  unfold fill_multiple_documents. simpl.
  match goal with |- context [foldl ?f ?st files] =>
    destruct (foldl_lists td
                (if given name
                 then Path.div out (timestamped_folder (default now ts) name)
                 else out)
                data (default now ts) name files st) as [H1 H2]
  end.
  simpl in H1, H2. rewrite H1, H2. repeat split.
Qed.

Lemma folder_of out t name :
  (if given name then Path.div out (timestamped_folder t name) else out)
  = output_folder_of out t name.
Proof.
  unfold given, output_folder_of, timestamped_folder, Path.div.
  destruct name as [n|]; [|reflexivity].
  destruct (String.eqb n ""); reflexivity.
Qed.

Lemma reported_of t name f :
  (if given name then timestamped_folder t name +:+ "/" +:+ f else f)
  = reported_path t name f.
Proof.
  unfold given, reported_path, timestamped_folder.
  destruct name as [n|]; [|reflexivity].
  destruct (String.eqb n ""); reflexivity.
Qed.

Lemma contribution_lock td data t name f :
  startswith f "~$" = true ->
  contribution render libreoffice td data t name f = ([], []).
Proof. intros H. unfold contribution, fill_one. rewrite H. reflexivity. Qed.



(** One turn of the loop on a legacy file whose conversion fails. *)
Lemma fill_one_legacy_copy td folder data t name st f tpl :
  startswith f "~$" = false -> td !! f = Some tpl ->
  lower (Path.suffix f) = ".doc" -> conversion_failed (libreoffice f tpl) ->
  fill_one' td folder data t name st f
  = {| b_filled := b_filled st ++ [reported_path t name f];
       b_errors := b_errors st;
       b_world :=
         on_disk (Disk.write (Path.div folder f) tpl)
           (on_disk (Disk.mkdir_parents (Path.parent (Path.div folder f)))
              (print "To fill .doc files, please convert them to .docx format first."
                 (print (copy_warning f) (b_world st)))) |}.
Proof.
  intros H E Hs Hc. unfold fill_one, fill_document, _fill_doc_file.
  rewrite H, E. apply String.eqb_eq in Hs. rewrite Hs.
  rewrite (convert_failed _ _ _ Hc). simpl. rewrite reported_of. reflexivity.
Qed.

Lemma contribution_legacy_copy td data t name f tpl :
  startswith f "~$" = false -> td !! f = Some tpl ->
  lower (Path.suffix f) = ".doc" -> conversion_failed (libreoffice f tpl) ->
  contribution render libreoffice td data t name f = ([reported_path t name f], []).
Proof.
  intros H E Hs Hc. unfold contribution.
  rewrite (fill_one_legacy_copy _ _ _ _ _ _ _ _ H E Hs Hc). reflexivity.
Qed.

(** A file that is not a lock file adds one entry, to one of the lists. *)
Lemma contribution_one td data t name f :
  startswith f "~$" = false ->
  (length (fst (contribution render libreoffice td data t name f))
   + length (snd (contribution render libreoffice td data t name f)) = 1)%nat.
Proof.
  intros H. unfold contribution, fill_one. rewrite H.
  destruct (td !! f); [|reflexivity].
  destruct (fill_document' _ _ _ _ _) as [[] w1]; reflexivity.
Qed.

Lemma batch_entries td data t name files :
  (length (concat (map (fun f => fst (contribution render libreoffice td data t name f)) files))
   + length (concat (map (fun f => snd (contribution render libreoffice td data t name f)) files))
   = length (filter (fun f => startswith f "~$" = false) files))%nat.
Proof.
  induction files as [|f files IH]; [reflexivity|].
  cbn [List.map concat]. rewrite !length_app, filter_cons.
  destruct (startswith f "~$") eqn:E.
  - rewrite contribution_lock by exact E. rewrite decide_False by discriminate.
    exact IH.
  - pose proof (contribution_one td data t name f E).
    rewrite decide_True by reflexivity. cbn [length]. lia.
Qed.


Lemma foldl_lock_files td folder data t name files st :
  Forall (fun f => startswith f "~$" = true) files ->
  foldl (fill_one' td folder data t name) st files = st.
Proof.
  induction 1 as [|f files Hf _ IH]; simpl; [reflexivity|].
  unfold fill_one at 2. rewrite Hf. exact IH.
Qed.

Lemma ancestors_self (p : Path.t) : p ∈ Path.ancestors p.
Proof.
  induction p as [|part p IH]; simpl; [left|].
  right. apply list_elem_of_fmap. exists p. split; [reflexivity | exact IH].
Qed.

(** C10.  When the list of file names is empty or holds only names that
    start with [~$], the batch still creates its output folder (the
    timestamped one when a template name is given) and returns failure
    with [filled_files] and [errors] both empty. *)
Theorem C10_only_lock_files td out files data ts name now w :
  Forall (fun f => startswith f "~$" = true) files ->
  let folder := output_folder_of out (default now ts) name in
  let r := fst (batch td out files data ts name now w) in
  let w' := snd (batch td out files data ts name now w) in
  folder ∈ Disk.dirs (disk w')
  /\ success r = false
  /\ filled_files r = []
  /\ errors r = []
  /\ output_folder r = Path.to_str folder.
Proof.
  intros Hall. unfold fill_multiple_documents. simpl.
  rewrite (foldl_lock_files _ _ _ _ _ _ _ Hall). simpl.
  rewrite folder_of. repeat split.
  apply elem_of_union_r, elem_of_list_to_set, ancestors_self.
Qed.

(** C9.  For a legacy [.doc] file of a batch whose conversion fails (no
    converter, timeout, another exception of the call, nonzero exit status,
    or no converted file), the loop copies the source bytes unchanged to
    [output folder / file name], prints the warning that names the file,
    reports the file in [filled_files] at its place, and adds nothing to
    [errors]; the batch reports success.  The copy is on the disk once the
    file has been processed, and at the end of the batch when no later
    entry of the batch has the same name. *)
Theorem C9_legacy_conversion_fallback td out pre f post data ts name now w tpl :
  startswith f "~$" = false ->
  td !! f = Some tpl ->
  lower (Path.suffix f) = ".doc" ->
  conversion_failed (libreoffice f tpl) ->
  let folder := output_folder_of out (default now ts) name in
  let run files := batch td out files data ts name now w in
  Disk.files (disk (snd (run (pre ++ [f])))) !! Path.div folder f = Some tpl
  /\ (~ In f post ->
      Disk.files (disk (snd (run (pre ++ f :: post)))) !! Path.div folder f = Some tpl)
  /\ In (copy_warning f) (stdout (snd (run (pre ++ f :: post))))
  /\ filled_files (fst (run (pre ++ f :: post)))
     = filled_files (fst (run pre)) ++
       [reported_path (default now ts) name f] ++ filled_files (fst (run post))
  /\ errors (fst (run (pre ++ f :: post)))
     = errors (fst (run pre)) ++ errors (fst (run post))
  /\ success (fst (run (pre ++ f :: post))) = true.
Proof.
  intros Hf E Hs Hc folder run.
  assert (Hlists : forall files,
    filled_files (fst (run files))
    = concat (map (fun f => fst (contribution render libreoffice td data (default now ts) name f)) files)
    /\ errors (fst (run files))
       = concat (map (fun f => snd (contribution render libreoffice td data (default now ts) name f)) files)
    /\ success (fst (run files)) = (0 <? length (filled_files (fst (run files))))%nat)
    by (intros files; apply batch_lists).
  assert (Hstep : forall st,
            fill_one' td folder data (default now ts) name st f = _)
    by (intros st; exact (fill_one_legacy_copy td folder data _ name st f tpl Hf E Hs Hc)).
  assert (Hfilled : filled_files (fst (run (pre ++ f :: post)))
     = filled_files (fst (run pre)) ++
       [reported_path (default now ts) name f] ++ filled_files (fst (run post))).
  { destruct (Hlists (pre ++ f :: post)) as (-> & _ & _).
    destruct (Hlists pre) as (-> & _ & _). destruct (Hlists post) as (-> & _ & _).
    rewrite !map_app, !concat_app. cbn [List.map concat].
    rewrite (contribution_legacy_copy _ _ _ _ _ _ Hf E Hs Hc). reflexivity. }
  refine (conj _ (conj _ (conj _ (conj Hfilled (conj _ _))))).
  - subst run. unfold fill_multiple_documents. cbn [snd b_world].
    rewrite folder_of. fold folder. rewrite foldl_app. cbn [foldl].
    rewrite Hstep. simpl. apply lookup_insert_eq.
  - intros Hpost. subst run. unfold fill_multiple_documents. cbn [snd b_world].
    rewrite folder_of. fold folder.
    change (pre ++ f :: post) with (pre ++ [f] ++ post).
    rewrite app_assoc, foldl_app, (foldl_frame _ _ _ _ _ _ _ _ Hpost), foldl_app.
    cbn [foldl]. rewrite Hstep. simpl. apply lookup_insert_eq.
  - subst run. unfold fill_multiple_documents. cbn [snd b_world].
    rewrite folder_of. fold folder.
    change (pre ++ f :: post) with (pre ++ [f] ++ post).
    rewrite app_assoc, foldl_app. apply foldl_stdout.
    rewrite foldl_app. cbn [foldl]. rewrite Hstep. simpl.
    apply in_or_app. left. apply in_or_app. right. left. reflexivity.
  - destruct (Hlists (pre ++ f :: post)) as (_ & -> & _).
    destruct (Hlists pre) as (_ & -> & _). destruct (Hlists post) as (_ & -> & _).
    rewrite !map_app, !concat_app. cbn [List.map concat].
    rewrite (contribution_legacy_copy _ _ _ _ _ _ Hf E Hs Hc). reflexivity.
  - destruct (Hlists (pre ++ f :: post)) as (_ & _ & ->).
    rewrite Hfilled, !length_app. apply Nat.ltb_lt. simpl. lia.
Qed.

End FillBatch.

Section FillBatchSamples.
Import Py DocumentFiller Spec Examples.


(** The theorem at [letter.doc] between [report.docx] and a missing file,
    on a machine without the converter. *)
Lemma C9_legacy_conversion_fallback_witness :
  Disk.files (disk (snd (sample_batch (["report.docx"] ++ ["letter.doc"]))))
    !! ["output"; "2024-05-01_10-00-00_invoice"; "letter.doc"] = Some [xd0; xcf]
  /\ (~ In "letter.doc" ["missing.docx"] ->
      Disk.files (disk (snd (sample_batch
                               (["report.docx"] ++ "letter.doc" :: ["missing.docx"]))))
        !! ["output"; "2024-05-01_10-00-00_invoice"; "letter.doc"] = Some [xd0; xcf])
  /\ In (copy_warning "letter.doc")
        (stdout (snd (sample_batch (["report.docx"] ++ "letter.doc" :: ["missing.docx"]))))
  /\ filled_files (fst (sample_batch (["report.docx"] ++ "letter.doc" :: ["missing.docx"])))
     = filled_files (fst (sample_batch ["report.docx"])) ++
       ["2024-05-01_10-00-00_invoice/letter.doc"] ++
       filled_files (fst (sample_batch ["missing.docx"]))
  /\ errors (fst (sample_batch (["report.docx"] ++ "letter.doc" :: ["missing.docx"])))
     = errors (fst (sample_batch ["report.docx"])) ++
       errors (fst (sample_batch ["missing.docx"]))
  /\ success (fst (sample_batch (["report.docx"] ++ "letter.doc" :: ["missing.docx"])))
     = true.
Proof.
  apply (C9_legacy_conversion_fallback sample_render no_converter sample_templates
           ["output"] ["report.docx"] "letter.doc" ["missing.docx"] []
           (Some "2024-05-01_10-00-00") (Some "invoice") "2024-05-01_10-00-01"
           fresh [xd0; xcf]).
  - reflexivity.
  - reflexivity.
  - reflexivity.
  - left. reflexivity.
Defined.

(** The theorem at a batch of two lock files. *)
Lemma C10_only_lock_files_witness :
  ["output"; "2024-05-01_10-00-00_invoice"]
    ∈ Disk.dirs (disk (snd (sample_batch ["~$report.docx"; "~$letter.doc"])))
  /\ success (fst (sample_batch ["~$report.docx"; "~$letter.doc"])) = false
  /\ filled_files (fst (sample_batch ["~$report.docx"; "~$letter.doc"])) = []
  /\ errors (fst (sample_batch ["~$report.docx"; "~$letter.doc"])) = []
  /\ output_folder (fst (sample_batch ["~$report.docx"; "~$letter.doc"]))
     = "output/2024-05-01_10-00-00_invoice".
Proof.
  apply (C10_only_lock_files sample_render no_converter sample_templates
           ["output"] ["~$report.docx"; "~$letter.doc"] []
           (Some "2024-05-01_10-00-00") (Some "invoice") "2024-05-01_10-00-01" fresh).
  repeat constructor.
Defined.

(** The sample batch in full: one file filled, one copied with a warning,
    one reported missing, one lock file passed over. *)
Example sample_batch_result :
  fst (sample_batch ["report.docx"; "~$report.docx"; "letter.doc"; "missing.docx"])
  = {| success := true;
       filled_files := ["2024-05-01_10-00-00_invoice/report.docx";
                        "2024-05-01_10-00-00_invoice/letter.doc"];
       errors := ["Template not found: missing.docx"];
       output_folder := "output/2024-05-01_10-00-00_invoice" |}.
Proof. vm_compute. reflexivity. Qed.

End FillBatchSamples.

(** ** More on the reader *)

Section ReaderExtras.
Import Py ExcelConstants ExcelReader Spec.

Lemma rstrip_idem s : rstrip (rstrip s) = rstrip s.
Proof.
  induction s as [|c s IH]; [reflexivity|]. simpl.
  destruct (rstrip s) as [|d r] eqn:E.
  - destruct (is_space c) eqn:Hc; simpl; [reflexivity|]. rewrite Hc. reflexivity.
  - change (rstrip (String c (String d r)))
      with (match rstrip (String d r) with
            | EmptyString => if is_space c then EmptyString else String c EmptyString
            | String _ _ as r0 => String c r0
            end).
    rewrite IH. reflexivity.
Qed.

Lemma lstrip_head s : lstrip s = "" \/ exists c t, lstrip s = String c t /\ is_space c = false.
Proof.
  induction s as [|c s IH]; simpl; [left; reflexivity|].
  destruct (is_space c) eqn:Hc; [exact IH|]. right. eauto.
Qed.

Lemma rstrip_head c t :
  is_space c = false -> exists r, rstrip (String c t) = String c r.
Proof.
  intros Hc. simpl. destruct (rstrip t); [rewrite Hc|]; eauto.
Qed.

(** Trimming a trimmed string changes nothing. *)
Lemma strip_idem s : strip (strip s) = strip s.
Proof.
  unfold strip. destruct (lstrip_head s) as [->|(c & t & -> & Hc)]; [reflexivity|].
  destruct (rstrip_head c t Hc) as [r Hr].
  assert (Hl : lstrip (rstrip (String c t)) = rstrip (String c t))
    by (rewrite Hr; simpl; rewrite Hc; reflexivity).
  rewrite Hl. apply rstrip_idem.
Qed.

Lemma read_fields_inv loaded fields :
  read_fields loaded = Ok fields ->
  exists df, loaded = Ok df /\ has_required_columns df /\
             fields = omap parse_row (iterrows df).
Proof.
  destruct loaded as [df|e]; [|discriminate].
  intros H. exists df. split; [reflexivity|].
  assert (Hdec : has_required_columns df \/ ~ has_required_columns df).
  { unfold has_required_columns.
    destruct (in_dec string_dec "label" (columns df));
      destruct (in_dec string_dec "key" (columns df)); tauto. }
  destruct Hdec as [Hc|Hc].
  - split; [exact Hc|]. rewrite (read_fields_rows df Hc) in H. congruence.
  - exfalso. revert H. unfold read_fields, _parse_dataframe. simpl.
    destruct (validate_columns_missing df Hc) as [msg ->]. discriminate.
Qed.

(** Every key the reader returns is trimmed, not empty, and not the word
    nan in any letter case. *)
Theorem read_fields_keys_trimmed loaded fields field :
  read_fields loaded = Ok fields ->
  In field fields ->
  f_key field <> ""
  /\ lower (f_key field) <> "nan"
  /\ strip (f_key field) = f_key field.
Proof.
  intros (df & _ & _ & ->)%read_fields_inv Hin.
  apply list_elem_of_In, list_elem_of_omap in Hin as (row & _ & Hrow).
  pose proof (parse_row_Some row field Hrow) as Hk.
  assert (Hm : ~ key_missing (row_key row)).
  { intros Hm%parse_row_None. congruence. }
  rewrite Hk. unfold key_missing in Hm.
  split; [tauto|]. split; [tauto|].
  unfold row_key. apply strip_idem.
Qed.

(** The theorem at the first field of the two-row configuration. *)
Lemma read_fields_keys_trimmed_witness :
  "client_name" <> ""
  /\ lower "client_name" <> "nan"
  /\ strip "client_name" = "client_name".
Proof.
  apply (read_fields_keys_trimmed (Ok Examples.df_client_items)
           [ {| f_label := "Client"; f_key := "client_name";
                f_multiple := false; f_note := "" |};
             {| f_label := "Items"; f_key := "items";
                f_multiple := true; f_note := "" |} ]
           {| f_label := "Client"; f_key := "client_name";
              f_multiple := false; f_note := "" |}).
  - reflexivity.
  - simpl. tauto.
Defined.

Lemma filters_permutation (fields : list Field) :
  filter (fun field => f_multiple field = true) fields ++
  filter (fun field => f_multiple field = false) fields ≡ₚ fields.
Proof.
  induction fields as [|f fields IH]; [reflexivity|].
  rewrite !filter_cons. destruct (f_multiple f) eqn:E.
  - rewrite decide_True, decide_False by congruence. simpl. rewrite IH. reflexivity.
  - rewrite decide_False, decide_True by congruence.
    rewrite <- Permutation_middle, IH. reflexivity.
Qed.

(** The fields that accept several values and the fields that accept one
    split the fields of the configuration: together they are the same
    fields, none is in both, and the two counts add up to the number of
    fields. *)
Theorem field_filters_partition loaded fields :
  read_fields loaded = Ok fields ->
  exists multi single,
    get_multiple_value_fields loaded = Ok multi
    /\ get_single_value_fields loaded = Ok single
    /\ multi ++ single ≡ₚ fields
    /\ (length multi + length single = length fields)%nat
    /\ Forall (fun field => f_multiple field = true) multi
    /\ Forall (fun field => f_multiple field = false) single.
Proof.
  intros H. unfold get_multiple_value_fields, get_single_value_fields.
  rewrite H. simpl.
  eexists _, _. split; [reflexivity|]. split; [reflexivity|].
  pose proof (filters_permutation fields) as Hp.
  split; [exact Hp|]. split.
  - rewrite <- length_app. apply Permutation_length, Hp.
  - split; apply Forall_forall; intros f [Hf _]%list_elem_of_filter; exact Hf.
Qed.

(** The theorem at the two-row configuration: one field of each kind. *)
Lemma field_filters_partition_witness :
  exists multi single,
    get_multiple_value_fields (Ok Examples.df_client_items) = Ok multi
    /\ get_single_value_fields (Ok Examples.df_client_items) = Ok single
    /\ multi ++ single ≡ₚ
         [ {| f_label := "Client"; f_key := "client_name";
              f_multiple := false; f_note := "" |};
           {| f_label := "Items"; f_key := "items";
              f_multiple := true; f_note := "" |} ]
    /\ (length multi + length single = 2)%nat
    /\ Forall (fun field => f_multiple field = true) multi
    /\ Forall (fun field => f_multiple field = false) single.
Proof.
  apply (field_filters_partition (Ok Examples.df_client_items)). reflexivity.
Defined.

Lemma find_first_key (fields : list Field) key :
  In key (map f_key fields) ->
  exists pre field post,
    fields = pre ++ field :: post /\ f_key field = key /\
    ~ In key (map f_key pre) /\
    List.find (fun field => String.eqb (f_key field) key) fields = Some field.
Proof.
  induction fields as [|f fields IH]; simpl; [tauto|].
  destruct (String.eqb_spec (f_key f) key) as [E|E].
  - intros _. exists [], f, fields. simpl. tauto.
  - intros [Hf|Hin]; [contradiction|].
    destruct (IH Hin) as (pre & field & post & -> & Hk & Hpre & Hfind).
    exists (f :: pre), field, post. simpl. intuition.
Qed.

Lemma find_no_key (fields : list Field) key :
  ~ In key (map f_key fields) ->
  List.find (fun field => String.eqb (f_key field) key) fields = None.
Proof.
  induction fields as [|f fields IH]; simpl; [reflexivity|].
  intros Hn. destruct (String.eqb_spec (f_key f) key) as [E|E]; [tauto|].
  apply IH. tauto.
Qed.

(** Looking a field up by its key finds a field exactly when the key is
    among [get_field_keys]; the field found carries that key and is the
    first such field of the configuration. *)
Theorem get_field_by_key_first loaded fields key :
  read_fields loaded = Ok fields ->
  get_field_keys loaded = Ok (map f_key fields)
  /\ (In key (map f_key fields) ->
      exists pre field post,
        fields = pre ++ field :: post /\ f_key field = key /\
        ~ In key (map f_key pre) /\
        get_field_by_key loaded key = Ok (Some field))
  /\ (~ In key (map f_key fields) -> get_field_by_key loaded key = Ok None).
Proof.
  intros H. unfold get_field_keys, get_field_by_key. rewrite H. simpl.
  split; [reflexivity|]. split.
  - intros Hin. destruct (find_first_key fields key Hin)
      as (pre & field & post & -> & Hk & Hpre & Hfind).
    exists pre, field, post. rewrite Hfind. tauto.
  - intros Hn. rewrite (find_no_key fields key Hn). reflexivity.
Qed.

(** The theorem at the configuration with repeated keys: [items] finds
    the second row, the first that carries it; [total] finds nothing. *)
Lemma get_field_by_key_first_witness :
  (exists pre field post,
     omap parse_row (iterrows Examples.df_duplicates) = pre ++ field :: post /\
     f_key field = "items" /\
     ~ In "items" (map f_key pre) /\
     get_field_by_key (Ok Examples.df_duplicates) "items" = Ok (Some field))
  /\ get_field_by_key (Ok Examples.df_duplicates) "total" = Ok None.
Proof.
  split.
  - apply (get_field_by_key_first (Ok Examples.df_duplicates)
             (omap parse_row (iterrows Examples.df_duplicates)) "items").
    + reflexivity.
    + simpl. tauto.
  - apply (get_field_by_key_first (Ok Examples.df_duplicates)
             (omap parse_row (iterrows Examples.df_duplicates)) "total").
    + reflexivity.
    + simpl. intuition discriminate.
Defined.

End ReaderExtras.

(** ** The report of the configuration check *)

Section ReportExtras.
Import Py ExcelConstants ExcelReader Spec.

Lemma indicator_test_spec c :
  (isna c || String.eqb (strip (str c)) "" = false
   /\ str_in (upper (strip (str c))) ["TRUE"; "FALSE"] = false)
  <-> ~ indicator_cell_ok c.
Proof.
  unfold indicator_cell_ok. split.
  - intros [[Hna Hs]%orb_false_iff Hin] [H|[H|H]].
    + congruence.
    + apply String.eqb_neq in Hs. contradiction.
    + apply str_in_spec in H. congruence.
  - intros Hn. split.
    + apply orb_false_iff. split.
      * destruct (isna c); [exfalso; apply Hn; left; reflexivity | reflexivity].
      * apply String.eqb_neq. intros E. apply Hn. right. left. exact E.
    + destruct (str_in _ _) eqn:E; [|reflexivity].
      apply str_in_spec in E. exfalso. apply Hn. right. right. exact E.
Qed.

(** The strict check of the column [multiple] reports exactly the rows
    whose cell is filled with something other than TRUE or FALSE (in any
    letter case), each under the number of its spreadsheet row, which is
    its position plus two; without the column it reports nothing. *)
Theorem strict_multiple_check df e :
  In e (_validate_multiple_column df) <->
  exists j i vals,
    position "multiple" (columns df) = Some j /\
    rows df !! i = Some vals /\
    ~ indicator_cell_ok (cell_at vals j) /\
    e = indicator_error i (cell_at vals j).
Proof.
  unfold _validate_multiple_column, column_items, has_column.
  destruct (position "multiple" (columns df)) as [j|] eqn:Hpos.
  - assert (Hin : str_in "multiple" (columns df) = true).
    { apply str_in_spec. destruct (in_dec string_dec "multiple" (columns df)) as [H|H];
        [exact H|]. rewrite (position_not_In _ _ H) in Hpos. discriminate. }
    rewrite Hin. simpl negb. cbv iota.
    rewrite <- list_elem_of_In, list_elem_of_omap. split.
    + intros ((idx & value) & Hitem & Herr).
      apply elem_of_lookup_imap in Hitem as (i & vals & Heq & Hrow).
      cbv beta in Heq. injection Heq as -> ->.
      exists j, i, vals. split; [reflexivity|]. split; [exact Hrow|].
      destruct (isna _ || _) eqn:E1; [discriminate Herr|].
      destruct (str_in (upper _) _) eqn:E2; [discriminate Herr|].
      split; [apply indicator_test_spec; tauto|].
      injection Herr as <-. reflexivity.
    + intros (j' & i & vals & [= <-] & Hrow & Hbad & ->).
      exists (Z.of_nat i, cell_at vals j). split.
      * apply elem_of_lookup_imap. eauto.
      * apply indicator_test_spec in Hbad as [-> ->]. reflexivity.
  - split.
    + destruct (negb _); simpl; tauto.
    + intros (j & _ & _ & [=] & _).
Qed.

(** The theorem at the loose configuration: YES in the third column of the
    second data row is reported as row 3. *)
Lemma strict_multiple_check_witness :
  In "Row 3: Invalid 'multiple' value 'YES'. Must be TRUE or FALSE."
     (_validate_multiple_column Examples.df_loose).
Proof.
  apply (strict_multiple_check Examples.df_loose).
  exists 2%nat, 1%nat, [PStr "Items"; PStr "items"; PStr "YES"].
  split; [reflexivity|]. split; [reflexivity|]. split; [|reflexivity].
  unfold indicator_cell_ok. simpl. intuition discriminate.
Defined.

Lemma is_key_char_spec c : is_key_char c = true <-> word_char c.
Proof.
  unfold is_key_char, word_char, is_lower, is_upper, is_digit. cbv zeta.
  rewrite !orb_true_iff, !andb_true_iff, !Nat.leb_le, Ascii.eqb_eq.
  assert (Hu : c = "_"%char <-> nat_of_ascii c = 95%nat).
  { split; [intros ->; reflexivity|].
    intros H. rewrite <- (ascii_nat_embedding c), H. reflexivity. }
  rewrite Hu. tauto.
Qed.

Lemma key_format_ok_spec key : key_format_ok key = true <-> identifier key.
Proof.
  unfold key_format_ok, identifier.
  rewrite andb_true_iff, negb_true_iff, String.eqb_neq.
  assert (Hall : forall s, all_chars is_key_char s = true
                           <-> Forall word_char (list_ascii_of_string s)).
  { induction s as [|c s IH]; simpl.
    - split; [constructor | reflexivity].
    - rewrite andb_true_iff, Forall_cons, IH, is_key_char_spec. reflexivity. }
  rewrite Hall. reflexivity.
Qed.

Lemma NoDup_no_duplicates (keys : list string) :
  NoDup keys ->
  filter (fun key => (1 <? count key keys)%nat = true) keys = [].
Proof.
  intros Hnd%NoDup_ListNoDup. apply filter_none. intros x _ Hx%Nat.ltb_lt.
  rewrite count_count_occ in Hx.
  pose proof (proj1 (NoDup_count_occ string_dec keys) Hnd x). lia.
Qed.

(** The errors of the report, part by part, when the fields could be
    read. *)
Lemma validate_config_errors df fields :
  read_fields (Ok df) = Ok fields ->
  errors (validate_config (Ok df))
  = _validate_multiple_column df ++
    (if (length fields =? 0)%nat then ["No valid fields found in configuration"] else []) ++
    match filter (fun key => (1 <? count key (map f_key fields))%nat = true)
                 (map f_key fields) with
    | [] => []
    | d :: ds => ["Duplicate field keys found: " +:+
                  join ", " (elements (list_to_set (d :: ds) : gset string))]
    end ++
    omap (fun field => if key_format_ok (f_key field) then None
                       else Some (key_format_error (f_key field))) fields.
Proof.
  intros H. unfold validate_config, validate_body. rewrite H.
  destruct (filter _ (map f_key fields)); destruct (length fields =? 0)%nat;
    simpl; rewrite <- ?app_assoc; reflexivity.
Qed.

Lemma valid_no_errors loaded :
  valid (validate_config loaded) = true <-> errors (validate_config loaded) = [].
Proof.
  unfold validate_config.
  destruct (match loaded with Raise e => _ | Ok df => _ end) as [[errs warns] raised].
  simpl. rewrite Nat.eqb_eq. apply length_zero_iff_nil.
Qed.

(** The report is valid exactly when the file could be read, every cell of
    the column [multiple] passes the strict check, and the reader returns
    at least one field, with keys that are pairwise different and are all
    identifiers.  Labels and warnings play no part. *)
Theorem config_valid_iff loaded :
  valid (validate_config loaded) = true <->
  exists df fields,
    loaded = Ok df
    /\ (forall j i vals,
          position "multiple" (columns df) = Some j ->
          rows df !! i = Some vals ->
          indicator_cell_ok (cell_at vals j))
    /\ read_fields loaded = Ok fields
    /\ fields <> []
    /\ NoDup (map f_key fields)
    /\ Forall (fun field => identifier (f_key field)) fields.
Proof.
  split.
  - destruct loaded as [df|e]; [|discriminate].
    destruct (read_fields (Ok df)) as [fields|e] eqn:Hread.
    + intros Hlen%valid_no_errors.
      rewrite (validate_config_errors df fields Hread) in Hlen.
      apply app_eq_nil in Hlen as [Hmult Hlen].
      apply app_eq_nil in Hlen as [Hnone Hlen].
      apply app_eq_nil in Hlen as [Hdup Hkeys].
      exists df, fields. split; [reflexivity|]. split.
      { intros j i vals Hj Hrow.
        destruct (decide (isna (cell_at vals j) = true)) as [Hna|Hna];
          [left; exact Hna|].
        destruct (String.eqb_spec (strip (str (cell_at vals j))) "") as [Hs|Hs];
          [right; left; exact Hs|].
        destruct (in_dec string_dec (upper (strip (str (cell_at vals j))))
                    ["TRUE"; "FALSE"]) as [Hin|Hin];
          [right; right; exact Hin|].
        exfalso.
        assert (Hbad : In (indicator_error i (cell_at vals j))
                          (_validate_multiple_column df)).
        { apply strict_multiple_check. exists j, i, vals.
          repeat split; try assumption. unfold indicator_cell_ok. tauto. }
        rewrite Hmult in Hbad. exact Hbad. }
      split; [reflexivity|]. split.
      { intros ->. discriminate Hnone. }
      split.
      { apply no_duplicates_NoDup. destruct (filter _ _); [reflexivity | discriminate]. }
      apply Forall_forall. intros f Hf. apply key_format_ok_spec.
      destruct (key_format_ok (f_key f)) eqn:E; [reflexivity|]. exfalso.
      assert (Hin : key_format_error (f_key f) ∈
                    omap (fun field => if key_format_ok (f_key field) then None
                                       else Some (key_format_error (f_key field))) fields).
      { apply list_elem_of_omap. exists f. rewrite E. tauto. }
      rewrite Hkeys in Hin. inversion Hin.
    + unfold validate_config, validate_body. rewrite Hread. simpl.
      destruct (_validate_multiple_column df); discriminate.
  - intros (df & fields & -> & Hmult & Hread & Hne & Hnd & Hid).
    apply valid_no_errors.
    rewrite (validate_config_errors df fields Hread).
    assert (H1 : _validate_multiple_column df = []).
    { destruct (_validate_multiple_column df) as [|e l] eqn:E; [reflexivity|].
      exfalso. assert (Hin : In e (_validate_multiple_column df))
        by (rewrite E; left; reflexivity).
      apply strict_multiple_check in Hin as (j & i & vals & Hj & Hrow & Hbad & _).
      apply Hbad, (Hmult j i vals Hj Hrow). }
    assert (H2 : omap (fun field => if key_format_ok (f_key field) then None
                                    else Some (key_format_error (f_key field))) fields = []).
    { clear -Hid. induction Hid as [|f fields Hf _ IH]; [reflexivity|].
      simpl. apply key_format_ok_spec in Hf. rewrite Hf. exact IH. }
    rewrite H1, H2, (NoDup_no_duplicates _ Hnd).
    destruct fields; [congruence | reflexivity].
Qed.

(** The theorem, from right to left, at the two-row configuration. *)
Lemma config_valid_iff_witness :
  valid (validate_config (Ok Examples.df_client_items)) = true.
Proof.
  apply (proj2 (config_valid_iff (Ok Examples.df_client_items))).
  exists Examples.df_client_items,
    [ {| f_label := "Client"; f_key := "client_name";
         f_multiple := false; f_note := "" |};
      {| f_label := "Items"; f_key := "items";
         f_multiple := true; f_note := "" |} ].
  split; [reflexivity|]. split.
  { intros j i vals [= <-] Hrow. unfold indicator_cell_ok.
    destruct i as [|[|i]]; simpl in Hrow; [| |discriminate Hrow];
      injection Hrow as <-; simpl; tauto. }
  split; [reflexivity|]. split; [discriminate|]. split.
  - apply NoDup_ListNoDup. repeat constructor; simpl; intuition discriminate.
  - repeat (apply List.Forall_cons; [apply key_format_ok_spec; reflexivity|]).
    apply List.Forall_nil.
Defined.

#[local] Instance identifier_dec key : Decision (identifier key).
Proof.
  destruct (key_format_ok key) eqn:E.
  - left. apply key_format_ok_spec, E.
  - right. intros H%key_format_ok_spec. congruence.
Defined.

Lemma key_errors_all (fields : list Field) :
  filter is_key_format_error
    (omap (fun field => if key_format_ok (f_key field) then None
                        else Some (key_format_error (f_key field))) fields)
  = map (fun field => key_format_error (f_key field))
        (filter (fun field => ~ identifier (f_key field)) fields).
Proof.
  induction fields as [|f fields IH]; [reflexivity|].
  rewrite filter_cons.
  change (omap ?g (f :: fields))
    with (match g f with Some y => y :: omap g fields | None => omap g fields end).
  cbv beta. destruct (key_format_ok (f_key f)) eqn:E.
  - rewrite decide_False; [exact IH|].
    intros H. apply H, key_format_ok_spec, E.
  - rewrite decide_True by (intros H%key_format_ok_spec; congruence).
    rewrite filter_cons_True by apply prefix_app. rewrite IH. reflexivity.
Qed.

Lemma multiple_errors_not_key_format df e :
  e ∈ _validate_multiple_column df -> ~ is_key_format_error e.
Proof.
  intros (j & i & vals & _ & _ & _ & ->)%list_elem_of_In%strict_multiple_check.
  unfold is_key_format_error. discriminate.
Qed.

(** The report holds one key-format error for each field whose key is not
    an identifier, in the order of the fields, a key that occurs twice
    being reported twice; keys that are identifiers are never reported. *)
Theorem key_format_errors_listed df fields :
  read_fields (Ok df) = Ok fields ->
  filter is_key_format_error (errors (validate_config (Ok df)))
  = map (fun field => key_format_error (f_key field))
        (filter (fun field => ~ identifier (f_key field)) fields).
Proof.
  intros Hread. rewrite (validate_config_errors df fields Hread), !filter_app.
  rewrite (filter_none _ (_validate_multiple_column df))
    by apply multiple_errors_not_key_format.
  rewrite key_errors_all.
  destruct (length fields =? 0)%nat; destruct (filter _ (map f_key fields));
    reflexivity.
Qed.

(** The theorem at the loose configuration, whose third key has a space. *)
Lemma key_format_errors_listed_witness :
  filter is_key_format_error (errors (validate_config (Ok Examples.df_loose)))
  = map (fun field => key_format_error (f_key field))
        (filter (fun field => ~ identifier (f_key field))
           [ {| f_label := "Client"; f_key := "client_name";
                f_multiple := false; f_note := "" |};
             {| f_label := "Items"; f_key := "items";
                f_multiple := true; f_note := "" |};
             {| f_label := "Due"; f_key := "due date";
                f_multiple := false; f_note := "" |} ]).
Proof.
  apply (key_format_errors_listed Examples.df_loose). reflexivity.
Defined.

(** The report for the loose configuration in full. *)
Example loose_report :
  validate_config (Ok Examples.df_loose)
  = {| valid := false;
       errors := ["Row 3: Invalid 'multiple' value 'YES'. Must be TRUE or FALSE.";
                  "Invalid key format 'due date' - use only letters, numbers, and underscores"];
       warnings := [] |}.
Proof. vm_compute. reflexivity. Qed.



End ReportExtras.

(** ** The context handed to the renderer *)

Section RenderContext.
Import Py DocumentFiller Spec.

Lemma truthy_strings (items : list string) :
  map str (filter (fun item => truthy item = true) (map PStr items))
  = filter (fun s => s <> "") items.
Proof.
  induction items as [|s items IH]; [reflexivity|].
  cbn [List.map]. rewrite !filter_cons. simpl truthy.
  destruct (String.eqb_spec s "") as [->|Hs]; simpl negb.
  - rewrite decide_False, decide_False by congruence. exact IH.
  - rewrite decide_True, decide_True by congruence. cbn [List.map str].
    rewrite IH. reflexivity.
Qed.

(** The context has the keys of the form data, in the same order; a list
    of strings keeps its non-empty entries in order and loses the empty
    ones; [None] becomes the empty string and a string stays as it is. *)
Theorem build_context_entries (data : form_data) :
  map fst (build_context data) = map fst data
  /\ (forall key items,
        In (key, FList (map PStr items)) data ->
        In (key, CList (filter (fun s => s <> "") items)) (build_context data))
  /\ (forall key, In (key, FScalar PNone) data -> In (key, CStr "") (build_context data))
  /\ (forall key s, In (key, FScalar (PStr s)) data -> In (key, CStr s) (build_context data)).
Proof.
  unfold build_context. refine (conj _ (conj _ (conj _ _))).
  - rewrite map_map. apply map_ext. intros [key [items|[]]]; reflexivity.
  - intros key items Hin. apply in_map_iff. exists (key, FList (map PStr items)).
    split; [|exact Hin]. cbv beta iota. rewrite truthy_strings. reflexivity.
  - intros key Hin. apply in_map_iff. exists (key, FScalar PNone). tauto.
  - intros key s0 Hin. apply in_map_iff. exists (key, FScalar (PStr s0)). tauto.
Qed.

(** The theorem at the form data of the end-to-end scenario, with one
    empty entry among the items. *)
Lemma build_context_entries_witness :
  In ("items", CList (filter (fun s => s <> "") ["A"; ""; "B"]))
     (build_context [("client_name", FScalar (PStr "Acme"));
                     ("items", FList (map PStr ["A"; ""; "B"]))])
  /\ In ("client_name", CStr "Acme")
        (build_context [("client_name", FScalar (PStr "Acme"));
                        ("items", FList (map PStr ["A"; ""; "B"]))]).
Proof.
  destruct (build_context_entries
              [("client_name", FScalar (PStr "Acme"));
               ("items", FList (map PStr ["A"; ""; "B"]))])
    as (_ & Hlist & _ & Hstr).
  split.
  - apply Hlist. simpl. tauto.
  - apply Hstr. simpl. tauto.
Defined.

End RenderContext.

(** ** More on the fill engine *)

Section FillerExtras.
Import Py DocumentFiller Spec.

Variable render : Disk.bytes -> context -> result Disk.bytes.
Variable libreoffice : string -> Disk.bytes -> conversion.

Abbreviation fill_one'' := (fill_one render libreoffice).
Abbreviation batch' := (fill_multiple_documents render libreoffice).

(** A batch with one more file at its end is one more turn of the loop,
    started from what the shorter batch returned. *)
Lemma batch_snoc td out pre f data ts name now w :
  let folder := output_folder_of out (default now ts) name in
  let r := batch' td out pre data ts name now w in
  let st := fill_one'' td folder data (default now ts) name
              {| b_filled := filled_files (fst r);
                 b_errors := errors (fst r);
                 b_world := snd r |} f in
  filled_files (fst (batch' td out (pre ++ [f]) data ts name now w)) = b_filled st
  /\ errors (fst (batch' td out (pre ++ [f]) data ts name now w)) = b_errors st
  /\ snd (batch' td out (pre ++ [f]) data ts name now w) = b_world st.
Proof.
  unfold fill_multiple_documents. cbn [fst snd filled_files errors].
  rewrite folder_of, foldl_app. cbn [foldl].
  destruct (foldl _ _ pre) as [fl el wl]. cbn [b_filled b_errors b_world].
  repeat split.
Qed.

Lemma rendered_source_legacy f tpl src :
  lower (Path.suffix f) = ".doc" ->
  rendered_source libreoffice f tpl = Some src ->
  _convert_doc_to_docx libreoffice f tpl [] = (true, src).
Proof.
  unfold rendered_source, _convert_doc_to_docx. intros ->%String.eqb_eq.
  destruct (libreoffice f tpl) as [| | |rc [c|]]; try discriminate.
  - destruct rc; [|discriminate..]. intros [= ->]. reflexivity.
  - destruct rc; discriminate.
Qed.

(** One turn of the loop on a file that reaches the renderer. *)
Lemma fill_one_rendered td folder data t name st f tpl src :
  startswith f "~$" = false -> td !! f = Some tpl ->
  rendered_source libreoffice f tpl = Some src ->
  fill_one'' td folder data t name st f
  = match render src (build_context data) with
    | Ok doc =>
        {| b_filled := b_filled st ++ [reported_path t name f];
           b_errors := b_errors st;
           b_world :=
             on_disk (Disk.write (Path.div folder f) doc)
               (on_disk (Disk.mkdir_parents (Path.parent (Path.div folder f)))
                  (b_world st)) |}
    | Raise e =>
        {| b_filled := b_filled st;
           b_errors := b_errors st ++
                       ["Error filling " +:+ f +:+ ": " +:+
                        "Error filling document: " +:+ exn_str e];
           b_world := b_world st |}
    end.
Proof.
  intros Hf E Hsrc. unfold fill_one, fill_document. rewrite Hf, E.
  destruct (String.eqb (lower (Path.suffix f)) ".doc") eqn:Hs.
  - unfold _fill_doc_file.
    rewrite (rendered_source_legacy f tpl src (proj1 (String.eqb_eq _ _) Hs) Hsrc).
    unfold _fill_docx_file.
    destruct (render src (build_context data)); simpl; rewrite ?reported_of; reflexivity.
  - unfold rendered_source in Hsrc. rewrite Hs in Hsrc. injection Hsrc as <-.
    unfold _fill_docx_file.
    destruct (render tpl (build_context data)); simpl; rewrite ?reported_of; reflexivity.
Qed.

(** The conversion of a legacy file counts as done exactly when the
    converter ended with status 0 and left the converted file, which then
    replaces the temporary file; in each of the other cases (no converter,
    timeout, another exception, another status, no file) it counts as
    failed and the temporary file is as before. *)
Theorem conversion_done_iff name doc temp :
  (fst (_convert_doc_to_docx libreoffice name doc temp) = true <->
   exists converted, libreoffice name doc = Exited 0 (Some converted))
  /\ (fst (_convert_doc_to_docx libreoffice name doc temp) = false <->
      conversion_failed (libreoffice name doc))
  /\ (forall converted,
        libreoffice name doc = Exited 0 (Some converted) ->
        snd (_convert_doc_to_docx libreoffice name doc temp) = converted)
  /\ (conversion_failed (libreoffice name doc) ->
      snd (_convert_doc_to_docx libreoffice name doc temp) = temp).
Proof.
  assert (Hnot : forall rc p,
             conversion_failed (Exited rc (Some p)) -> rc <> 0).
  { unfold conversion_failed.
    intros rc p [H|[H|[[e H]|[(rc' & p' & H & Hrc)|[rc' H]]]]];
      try discriminate H.
    injection H as -> _. exact Hrc. }
  unfold _convert_doc_to_docx.
  destruct (libreoffice name doc) as [| |e|rc [c|]]; cbn [fst snd].
  - refine (conj _ (conj _ (conj _ _))).
    + split; [discriminate | intros [c H]; discriminate H].
    + split; [intros _; left; reflexivity | reflexivity].
    + intros c H. discriminate H.
    + reflexivity.
  - refine (conj _ (conj _ (conj _ _))).
    + split; [discriminate | intros [c H]; discriminate H].
    + split; [intros _; right; left; reflexivity | reflexivity].
    + intros c H. discriminate H.
    + reflexivity.
  - refine (conj _ (conj _ (conj _ _))).
    + split; [discriminate | intros [c H]; discriminate H].
    + split; [intros _; right; right; left; exists e; reflexivity | reflexivity].
    + intros c H. discriminate H.
    + reflexivity.
  - destruct (Z.eqb_spec rc 0) as [->|Hrc]; cbn [fst snd];
      refine (conj _ (conj _ (conj _ _))).
    + split; [intros _; exists c; reflexivity | reflexivity].
    + split; [discriminate|]. intros H. exfalso. exact (Hnot 0 c H eq_refl).
    + intros converted H. injection H as ->. reflexivity.
    + intros H. exfalso. exact (Hnot 0 c H eq_refl).
    + split; [discriminate|]. intros [converted H]. injection H as -> _. congruence.
    + split; [|reflexivity]. intros _. right. right. right. left.
      exists rc, (Some c). split; [reflexivity | exact Hrc].
    + intros converted H. injection H as -> _. congruence.
    + reflexivity.
  - assert (E : (if rc =? 0 then (false, temp) else (false, temp)) = (false, temp))
      by (destruct (rc =? 0); reflexivity).
    rewrite E. cbn [fst snd]. refine (conj _ (conj _ (conj _ _))).
    + split; [discriminate | intros [c H]; discriminate H].
    + split; [|reflexivity]. intros _. right. right. right. right.
      exists rc. reflexivity.
    + intros c H. discriminate H.
    + reflexivity.
Qed.

(** A file that reaches the renderer, placed at the end of a batch: when
    the rendering succeeds, the document is written to
    [output folder / file name], the file is reported as filled, and
    nothing is printed; when the rendering raises, nothing is written or
    printed and one error is added, made of the file name and of the
    message of the exception. *)
Theorem rendering_outcome td out pre f data ts name now w tpl src :
  startswith f "~$" = false ->
  td !! f = Some tpl ->
  rendered_source libreoffice f tpl = Some src ->
  let folder := output_folder_of out (default now ts) name in
  let before := batch' td out pre data ts name now w in
  let after := batch' td out (pre ++ [f]) data ts name now w in
  (forall doc,
     render src (build_context data) = Ok doc ->
     filled_files (fst after)
     = filled_files (fst before) ++ [reported_path (default now ts) name f]
     /\ errors (fst after) = errors (fst before)
     /\ Disk.files (disk (snd after))
        = <[Path.div folder f := doc]> (Disk.files (disk (snd before)))
     /\ stdout (snd after) = stdout (snd before))
  /\ (forall e,
        render src (build_context data) = Raise e ->
        filled_files (fst after) = filled_files (fst before)
        /\ errors (fst after)
           = errors (fst before) ++
             ["Error filling " +:+ f +:+ ": Error filling document: " +:+ exn_str e]
        /\ snd after = snd before).
Proof.
  intros Hf E Hsrc folder before after.
  destruct (batch_snoc td out pre f data ts name now w) as (H1 & H2 & H3).
  fold folder before after in H1, H2, H3.
  rewrite (fill_one_rendered _ _ _ _ _ _ _ _ _ Hf E Hsrc) in H1, H2, H3.
  split.
  - intros doc Hr. rewrite Hr in H1, H2, H3. rewrite H1, H2, H3. repeat split.
  - intros e Hr. rewrite Hr in H1, H2, H3. rewrite H1, H2, H3. repeat split.
Qed.








End FillerExtras.

(** ** Template folders *)

Section FolderExtras.
Import Py ExcelConstants ExcelReader App Spec.

Lemma glob_head folder p f l :
  glob folder p = f :: l -> In f (entries folder) /\ matches p f = true.
Proof.
  intros H. assert (Hin : f ∈ glob folder p) by (rewrite H; left).
  unfold glob in Hin. apply list_elem_of_filter in Hin as [Hm Hin].
  split; [apply list_elem_of_In, Hin | exact Hm].
Qed.

Lemma glob_nil folder p :
  glob folder p = [] <-> forall f, In f (entries folder) -> matches p f = false.
Proof.
  unfold glob. split.
  - intros H f Hin. destruct (matches p f) eqn:E; [|reflexivity].
    exfalso. apply (filter_nil_not_elem_of _ _ f H E), list_elem_of_In, Hin.
  - intros H. apply filter_none. intros f Hin%list_elem_of_In. rewrite (H f Hin).
    discriminate.
Qed.

(** The configuration file of a folder: [config.xlsx] when the folder has
    it; otherwise the first entry that ends with [.xlsx], and only when
    there is none the first that ends with [.xls]; none exactly when no
    entry ends with either.  The file found is an entry of the folder. *)
Theorem find_config_file_choice folder :
  (In "config.xlsx" (entries folder) -> find_config_file folder = Some "config.xlsx")
  /\ (forall f, find_config_file folder = Some f ->
        In f (entries folder)
        /\ (endswith f ".xlsx" = true \/
            (endswith f ".xls" = true /\
             forall g, In g (entries folder) -> endswith g ".xlsx" = false)))
  /\ (find_config_file folder = None <->
      forall f, In f (entries folder) ->
                endswith f ".xlsx" = false /\ endswith f ".xls" = false).
Proof.
  unfold find_config_file, DEFAULT_CONFIG_EXCEL_FILENAME.
  refine (conj _ (conj _ _)).
  - intros Hin. apply str_in_spec in Hin. rewrite Hin. reflexivity.
  - intros f. destruct (str_in "config.xlsx" (entries folder)) eqn:Hc.
    + intros [= <-]. apply str_in_spec in Hc. split; [exact Hc|]. left. reflexivity.
    + destruct (glob folder (StarSuffix ".xlsx")) as [|x xs] eqn:Hx.
      * destruct (glob folder (StarSuffix ".xls")) as [|y ys] eqn:Hy; [discriminate|].
        intros [= <-]. destruct (glob_head _ _ _ _ Hy) as [Hin Hm].
        split; [exact Hin|]. right. split; [exact Hm|].
        apply (proj1 (glob_nil folder (StarSuffix ".xlsx")) Hx).
      * intros [= <-]. destruct (glob_head _ _ _ _ Hx) as [Hin Hm].
        split; [exact Hin|]. left. exact Hm.
  - destruct (str_in "config.xlsx" (entries folder)) eqn:Hc.
    + split; [discriminate|]. intros H. apply str_in_spec in Hc.
      destruct (H _ Hc) as [H1 _]. discriminate H1.
    + destruct (glob folder (StarSuffix ".xlsx")) as [|x xs] eqn:Hx.
      * destruct (glob folder (StarSuffix ".xls")) as [|y ys] eqn:Hy.
        -- split; [|reflexivity]. intros _ f Hin. split.
           ++ apply (proj1 (glob_nil folder (StarSuffix ".xlsx")) Hx f Hin).
           ++ apply (proj1 (glob_nil folder (StarSuffix ".xls")) Hy f Hin).
        -- split; [discriminate|]. intros H.
           destruct (glob_head _ _ _ _ Hy) as [Hin Hm].
           destruct (H _ Hin) as [_ H2]. simpl in Hm. congruence.
      * split; [discriminate|]. intros H.
        destruct (glob_head _ _ _ _ Hx) as [Hin Hm].
        destruct (H _ Hin) as [H1 _]. simpl in Hm. congruence.
Qed.

(** The theorem at a folder that holds [old.xls] before [fields.xlsx]. *)
Lemma find_config_file_choice_witness :
  In "fields.xlsx" (entries Examples.folder_two_sheets)
  /\ (endswith "fields.xlsx" ".xlsx" = true \/
      (endswith "fields.xlsx" ".xls" = true /\
       forall g, In g (entries Examples.folder_two_sheets) -> endswith g ".xlsx" = false)).
Proof.
  apply (proj1 (proj2 (find_config_file_choice Examples.folder_two_sheets))).
  reflexivity.
Defined.

Lemma filter_nil_iff {A} (P : A -> Prop) `{forall x, Decision (P x)} (l : list A) :
  filter P l = [] <-> forall x, x ∈ l -> ~ P x.
Proof.
  split; [|apply filter_none].
  intros E x Hin HP. exact (filter_nil_not_elem_of _ _ x E HP Hin).
Qed.

Lemma filter_cons_iff {A} (P : A -> Prop) `{forall x, Decision (P x)} (l : list A) :
  (exists x xs, filter P l = x :: xs) <-> exists x, x ∈ l /\ P x.
Proof.
  split.
  - intros (x & xs & E). exists x.
    assert (Hin : x ∈ filter P l) by (rewrite E; left).
    apply list_elem_of_filter in Hin. tauto.
  - intros (x & Hin & HP). destruct (filter P l) as [|y ys] eqn:E; [|eauto].
    exfalso. exact (filter_nil_not_elem_of _ _ x E HP Hin).
Qed.

Lemma documents_spec folder d :
  d ∈ glob folder (StarInfixStar ".doc") <-> In d (entries folder) /\ is_document d.
Proof.
  unfold glob, is_document. rewrite list_elem_of_filter, list_elem_of_In. simpl. tauto.
Qed.

Lemma modern_documents folder :
  (exists x xs,
     filter (fun f => String.eqb (lower (Path.suffix f)) ".docx" = true)
            (glob folder (StarInfixStar ".doc")) = x :: xs)
  <-> exists d, In d (entries folder) /\ is_modern d.
Proof.
  rewrite filter_cons_iff. unfold is_modern. split.
  - intros (d & [Hin Hdoc]%documents_spec & Hs%String.eqb_eq). eauto.
  - intros (d & Hin & Hdoc & Hs). exists d. rewrite documents_spec, String.eqb_eq. tauto.
Qed.

Lemma legacy_documents folder :
  (exists x xs,
     filter (fun f => String.eqb (lower (Path.suffix f)) ".doc" = true)
            (glob folder (StarInfixStar ".doc")) = x :: xs)
  <-> exists d, In d (entries folder) /\ is_legacy d.
Proof.
  rewrite filter_cons_iff. unfold is_legacy. split.
  - intros (d & [Hin Hdoc]%documents_spec & Hs%String.eqb_eq). eauto.
  - intros (d & Hin & Hdoc & Hs). exists d. rewrite documents_spec, String.eqb_eq. tauto.
Qed.

(** The report of the folder check once the configuration file is found
    and accepted: the status and the errors, by cases on the documents. *)
Lemma validate_template_errors folder config :
  find_config_file folder = Some config ->
  _validate_file config = Ok tt ->
  let r := validate_template (Some folder) in
  let c := validate_config (read_excel folder config) in
  (t_valid r = true <-> t_errors r = [])
  /\ ((exists d, In d (entries folder) /\ is_modern d) -> t_errors r = errors c)
  /\ (~ (exists d, In d (entries folder) /\ is_modern d) ->
      (exists d, In d (entries folder) /\ is_document d) ->
      t_errors r = errors c ++ [no_docx_error])
  /\ (~ (exists d, In d (entries folder) /\ is_document d) ->
      t_errors r = errors c ++ [no_documents_error; no_docx_error]).
Proof.
  intros Hfind Hfile. unfold validate_template. rewrite Hfind, Hfile.
  cbv zeta. cbn [t_valid t_errors].
  pose proof (modern_documents folder) as Hmodern.
  set (docs := glob folder (StarInfixStar ".doc")) in *.
  assert (Hdocs : (exists x xs, docs = x :: xs)
                  <-> exists d, In d (entries folder) /\ is_document d).
  { split.
    - intros (x & xs & E). exists x. apply documents_spec. fold docs. rewrite E. left.
    - intros (d & Hd). apply documents_spec in Hd. fold docs in Hd.
      destruct docs; [inversion Hd | eauto]. }
  set (docx := filter _ docs) in *.
  refine (conj _ (conj _ (conj _ _))).
  - rewrite Nat.eqb_eq. apply length_zero_iff_nil.
  - intros Hm. apply Hmodern in Hm as (x & xs & Ex). rewrite Ex.
    destruct docs as [|y ys]; [discriminate Ex | reflexivity].
  - intros Hno Hsome. apply Hdocs in Hsome as (y & ys & Ey). rewrite Ey.
    destruct docx as [|x xs]; [reflexivity|]. exfalso. apply Hno, Hmodern. eauto.
  - intros Hno. destruct docs as [|y ys].
    + subst docx. rewrite filter_nil. rewrite <- app_assoc. reflexivity.
    + exfalso. apply Hno, Hdocs. eauto.
Qed.

(** A template passes the folder check exactly when its folder exists, a
    configuration file is found in it and has a spreadsheet extension, the
    configuration check passes, and some entry of the folder contains
    [.doc] and has the extension [.docx] in any letter case. *)
Theorem template_valid_iff template :
  t_valid (validate_template template) = true <->
  exists folder config,
    template = Some folder
    /\ find_config_file folder = Some config
    /\ _validate_file config = Ok tt
    /\ valid (validate_config (read_excel folder config)) = true
    /\ exists d, In d (entries folder) /\ is_modern d.
Proof.
  split.
  - destruct template as [folder|]; [|discriminate].
    destruct (find_config_file folder) as [config|] eqn:Hfind;
      [|unfold validate_template; rewrite Hfind; discriminate].
    destruct (_validate_file config) as [[]|e] eqn:Hfile;
      [|unfold validate_template; rewrite Hfind, Hfile; discriminate].
    destruct (validate_template_errors folder config Hfind Hfile)
      as (Hvalid & Hmod & Hleg & Hnone).
    intros Hv%Hvalid. exists folder, config.
    split; [reflexivity|]. split; [exact Hfind|]. split; [exact Hfile|].
    assert (Hdec : (exists d, In d (entries folder) /\ is_modern d)
                   \/ ~ (exists d, In d (entries folder) /\ is_modern d)).
    { destruct (filter (fun f => String.eqb (lower (Path.suffix f)) ".docx" = true)
                       (glob folder (StarInfixStar ".doc"))) as [|x xs] eqn:E.
      - right. intros (y & ys & E')%modern_documents. congruence.
      - left. apply modern_documents. eauto. }
    destruct Hdec as [Hm|Hm].
    + split; [|exact Hm]. apply valid_no_errors. rewrite <- (Hmod Hm). exact Hv.
    + exfalso.
      assert (Hdec' : (exists d, In d (entries folder) /\ is_document d)
                      \/ ~ (exists d, In d (entries folder) /\ is_document d)).
      { destruct (glob folder (StarInfixStar ".doc")) as [|x xs] eqn:E.
        - right. intros (d & Hd%documents_spec). rewrite E in Hd. inversion Hd.
        - left. exists x. apply documents_spec. rewrite E. left. }
      destruct Hdec' as [Hd|Hd].
      * rewrite (Hleg Hm Hd) in Hv. destruct (errors _); discriminate.
      * rewrite (Hnone Hd) in Hv. destruct (errors _); discriminate.
  - intros (folder & config & -> & Hfind & Hfile & Hc & Hm).
    destruct (validate_template_errors folder config Hfind Hfile)
      as (Hvalid & Hmod & _).
    apply Hvalid. rewrite (Hmod Hm). apply valid_no_errors, Hc.
Qed.

(** The theorem, from right to left, at the invoice folder. *)
Lemma template_valid_iff_witness :
  t_valid (validate_template (Some Examples.folder_invoice)) = true.
Proof.
  apply (proj2 (template_valid_iff (Some Examples.folder_invoice))).
  exists Examples.folder_invoice, "config.xlsx".
  split; [reflexivity|]. split; [reflexivity|]. split; [reflexivity|].
  split; [reflexivity|]. exists "report.docx".
  split; [simpl; tauto|]. split; reflexivity.
Defined.

Lemma validate_template_warnings folder config :
  find_config_file folder = Some config ->
  _validate_file config = Ok tt ->
  let r := validate_template (Some folder) in
  let c := validate_config (read_excel folder config) in
  ((exists d, In d (entries folder) /\ is_legacy d) ->
   exists note, t_warnings r = Some (warnings c ++ [note]))
  /\ (~ (exists d, In d (entries folder) /\ is_legacy d) ->
      t_warnings r = Some (warnings c)).
Proof.
  intros Hfind Hfile. unfold validate_template. rewrite Hfind, Hfile.
  cbv zeta. cbn [t_warnings].
  pose proof (legacy_documents folder) as Hlegacy.
  destruct (filter _ (glob folder (StarInfixStar ".doc"))) as [|x xs].
  - split; [|reflexivity]. intros (y & ys & E)%Hlegacy. discriminate E.
  - split; [eauto|]. intros Hn. exfalso. apply Hn, Hlegacy. eauto.
Qed.

(** Once the configuration file is found and accepted, the folder check
    keeps every error and warning of the configuration check, in order,
    and adds its own after them: at most the two errors about documents,
    and one warning exactly when the folder holds a legacy document.  A
    folder whose documents are all of the legacy format is invalid: it
    gets the error that asks for a [.docx] file, and the warning. *)
Theorem template_checks_accumulate folder config :
  find_config_file folder = Some config ->
  _validate_file config = Ok tt ->
  let r := validate_template (Some folder) in
  let c := validate_config (read_excel folder config) in
  (exists rest,
     t_errors r = errors c ++ rest
     /\ Forall (fun e => e = no_documents_error \/ e = no_docx_error) rest)
  /\ ((exists d, In d (entries folder) /\ is_legacy d) ->
      exists note, t_warnings r = Some (warnings c ++ [note]))
  /\ (~ (exists d, In d (entries folder) /\ is_legacy d) ->
      t_warnings r = Some (warnings c))
  /\ ((exists d, In d (entries folder) /\ is_document d) ->
      (forall d, In d (entries folder) -> is_document d -> is_legacy d) ->
      t_valid r = false
      /\ t_errors r = errors c ++ [no_docx_error]
      /\ exists note, t_warnings r = Some (warnings c ++ [note])).
Proof.
  intros Hfind Hfile r c.
  destruct (validate_template_errors folder config Hfind Hfile)
    as (Hvalid & Hmod & Hleg & Hnone).
  destruct (validate_template_warnings folder config Hfind Hfile) as (Hw1 & Hw2).
  fold r c in Hvalid, Hmod, Hleg, Hnone, Hw1, Hw2.
  assert (Hdm : (exists d, In d (entries folder) /\ is_modern d)
                \/ ~ (exists d, In d (entries folder) /\ is_modern d)).
  { destruct (filter (fun f => String.eqb (lower (Path.suffix f)) ".docx" = true)
                     (glob folder (StarInfixStar ".doc"))) as [|x xs] eqn:E.
    - right. intros (y & ys & E')%modern_documents. congruence.
    - left. apply modern_documents. eauto. }
  assert (Hdd : (exists d, In d (entries folder) /\ is_document d)
                \/ ~ (exists d, In d (entries folder) /\ is_document d)).
  { destruct (glob folder (StarInfixStar ".doc")) as [|x xs] eqn:E.
    - right. intros (d & Hd%documents_spec). rewrite E in Hd. inversion Hd.
    - left. exists x. apply documents_spec. rewrite E. left. }
  refine (conj _ (conj Hw1 (conj Hw2 _))).
  - destruct Hdm as [Hm|Hm]; [|destruct Hdd as [Hd|Hd]].
    + exists []. rewrite app_nil_r. split; [exact (Hmod Hm) | constructor].
    + exists [no_docx_error]. split; [exact (Hleg Hm Hd)|].
      repeat (apply List.Forall_cons; [auto|]). apply List.Forall_nil.
    + exists [no_documents_error; no_docx_error]. split; [exact (Hnone Hd)|].
      repeat (apply List.Forall_cons; [auto|]). apply List.Forall_nil.
  - intros Hd Hall.
    assert (Hm : ~ (exists d, In d (entries folder) /\ is_modern d)).
    { intros (d & Hin & Hdoc & Hs). destruct (Hall d Hin Hdoc) as [_ Hs'].
      rewrite Hs in Hs'. discriminate Hs'. }
    pose proof (Hleg Hm Hd) as He. split; [|split; [exact He|]].
    + destruct (t_valid r); [|reflexivity].
      pose proof (proj1 Hvalid eq_refl) as Hv. rewrite He in Hv.
      destruct (errors c); discriminate.
    + apply Hw1. destruct Hd as (d & Hin & Hdoc). exists d. split; [exact Hin|].
      apply Hall; assumption.
Qed.

(** The theorem at the folder that holds a legacy document only. *)
Lemma template_checks_accumulate_witness :
  t_valid (validate_template (Some Examples.folder_legacy_only)) = false
  /\ t_errors (validate_template (Some Examples.folder_legacy_only))
     = errors (validate_config (Ok Examples.df_client_items)) ++ [no_docx_error]
  /\ exists note,
       t_warnings (validate_template (Some Examples.folder_legacy_only))
       = Some (warnings (validate_config (Ok Examples.df_client_items)) ++ [note]).
Proof.
  apply (template_checks_accumulate Examples.folder_legacy_only "config.xlsx").
  - reflexivity.
  - reflexivity.
  - exists "letter.doc". split; [simpl; tauto | reflexivity].
  - intros d [<-|[<-|[]]] Hdoc; [discriminate Hdoc|]. split; reflexivity.
Defined.

Lemma prefix_app_l p s t :
  String.prefix p s = true -> String.prefix p (s +:+ t) = true.
Proof.
  revert s. induction p as [|c p IH]; intros [|d s]; simpl; try congruence.
  - destruct t; reflexivity.
  - destruct (ascii_dec c d); [apply IH | congruence].
Qed.

Lemma config_valid_fields loaded :
  valid (validate_config loaded) = true ->
  exists fields,
    read_fields loaded = Ok fields /\ fields <> [] /\
    NoDup (map f_key fields) /\
    Forall (fun field => identifier (f_key field)) fields.
Proof.
  intros (df & fields & _ & _ & H)%config_valid_iff. eauto.
Qed.

(** [get_template_fields] returns fields exactly for the templates that
    pass the folder check, and then prints nothing; the fields are those of
    the configuration file, there is at least one, and their keys are
    pairwise different identifiers.  For every other template it raises
    an exception whose message starts with [Template validation failed:],
    after one line that repeats it was printed. *)
Theorem get_template_fields_checked template :
  (t_valid (validate_template template) = true ->
   exists folder config fields,
     template = Some folder
     /\ find_config_file folder = Some config
     /\ read_fields (read_excel folder config) = Ok fields
     /\ get_template_fields template = (Ok fields, [])
     /\ fields <> []
     /\ NoDup (map f_key fields)
     /\ Forall (fun field => identifier (f_key field)) fields)
  /\ (t_valid (validate_template template) = false ->
      exists msg,
        get_template_fields template
        = (Raise (Exception msg), ["Error reading template fields: " +:+ msg])
        /\ startswith msg "Template validation failed:" = true).
Proof.
  split.
  - intros Hv. pose proof Hv as Hv'.
    apply template_valid_iff in Hv'
      as (folder & config & -> & Hfind & Hfile & Hc & _).
    destruct (config_valid_fields _ Hc) as (fields & Hread & Hne & Hnd & Hid).
    exists folder, config, fields.
    split; [reflexivity|]. split; [exact Hfind|]. split; [exact Hread|].
    split; [|tauto].
    unfold get_template_fields. rewrite Hv. cbn [negb].
    rewrite Hfind, Hfile. simpl. rewrite Hread. reflexivity.
  - intros Hv. unfold get_template_fields. rewrite Hv. cbn [negb].
    eexists. split; [reflexivity|].
    destruct (t_warnings _) as [[|w ws]|];
      [apply prefix_app | apply prefix_app_l, prefix_app | apply prefix_app].
Qed.

(** The theorem at the invoice folder and at the legacy-only folder. *)
Lemma get_template_fields_checked_witness :
  (exists folder config fields,
     Some Examples.folder_invoice = Some folder
     /\ find_config_file folder = Some config
     /\ read_fields (read_excel folder config) = Ok fields
     /\ get_template_fields (Some Examples.folder_invoice) = (Ok fields, [])
     /\ fields <> []
     /\ NoDup (map f_key fields)
     /\ Forall (fun field => identifier (f_key field)) fields)
  /\ (exists msg,
        get_template_fields (Some Examples.folder_legacy_only)
        = (Raise (Exception msg), ["Error reading template fields: " +:+ msg])
        /\ startswith msg "Template validation failed:" = true).
Proof.
  split.
  - apply (proj1 (get_template_fields_checked (Some Examples.folder_invoice))).
    reflexivity.
  - apply (proj2 (get_template_fields_checked (Some Examples.folder_legacy_only))).
    reflexivity.
Defined.

End FolderExtras.

(** ** Filling the documents of a template *)

Section FillDocuments.
Import Py DocumentFiller App Spec.

Variable render : Disk.bytes -> context -> result Disk.bytes.
Variable libreoffice : string -> Disk.bytes -> conversion.

Lemma document_files_spec folder f :
  f ∈ document_files folder ->
  In f (entries folder) /\ startswith f "~$" = false.
Proof.
  unfold document_files, glob. rewrite elem_of_app, !list_elem_of_filter.
  rewrite !list_elem_of_In. tauto.
Qed.

Lemma contribution_existing td data t name f tpl :
  startswith f "~$" = false -> td !! f = Some tpl ->
  Forall (fun e => startswith e "Error filling " = true)
         (snd (contribution render libreoffice td data t name f)).
Proof.
  intros Hf E. unfold contribution, fill_one. rewrite Hf, E.
  destruct (fill_document _ _ _ _ _ _ _) as [[] w1]; cbn [snd b_errors app].
  - constructor.
  - constructor; [apply prefix_app | constructor].
Qed.

Lemma batch_errors_existing td data t name files :
  (forall f, In f files -> startswith f "~$" = false /\ is_Some (td !! f)) ->
  Forall (fun e => startswith e "Error filling " = true)
         (concat (map (fun f => snd (contribution render libreoffice td data t name f)) files)).
Proof.
  induction files as [|f files IH]; intros H; cbn [List.map concat]; [constructor|].
  apply Forall_app. split.
  - destruct (H f (or_introl eq_refl)) as [Hf [tpl E]].
    apply (contribution_existing _ _ _ _ _ tpl); assumption.
  - apply IH. intros g Hg. apply H. right. exact Hg.
Qed.

Lemma filter_all {A} (P : A -> Prop) `{forall x, Decision (P x)} (l : list A) :
  (forall x, x ∈ l -> P x) -> filter P l = l.
Proof.
  induction l as [|a l IH]; intros Hl; [reflexivity|].
  rewrite filter_cons_True by (apply Hl; left).
  f_equal. apply IH. intros x Hx. apply Hl. right. exact Hx.
Qed.

(** [fill_documents] on a folder whose listing shows files that exist.
    Without a document (lock files do not count) it answers that no Word
    document was found and leaves the disk alone: no output folder is
    created.  Otherwise every document gives exactly one entry, a filled
    file or an error, and no error ever reports a missing template.  A
    success carries at least one file and one note for each document whose
    name ends with [.doc], whatever became of its conversion; a failure
    carries one error for each document and neither files nor notes. *)
Theorem fill_documents_reply folder td out name data ts w :
  (forall f, In f (entries folder) -> is_Some (td !! f)) ->
  let docs := document_files folder in
  let reply := fill_documents render libreoffice (Some folder) td out name data ts w in
  (docs = [] ->
   reply = (FillFailed "No Word documents found in template folder" None, w))
  /\ (docs <> [] ->
      match fst reply with
      | FillDone _ files errs notes out_folder =>
          files <> []
          /\ (length files + length errs = length docs)%nat
          /\ Forall (fun e => startswith e "Error filling " = true) errs
          /\ notes = map legacy_note (filter (fun f => endswith f ".doc" = true) docs)
          /\ out_folder = Path.to_str (output_folder_of out ts (Some name))
      | FillFailed message errs =>
          message = "Failed to fill documents"
          /\ exists es,
               errs = Some es
               /\ length es = length docs
               /\ Forall (fun e => startswith e "Error filling " = true) es
      end).
Proof.
  intros Hexists docs reply. subst reply. unfold fill_documents. fold docs.
  split; [intros ->; reflexivity|]. intros Hne.
  destruct docs as [|d ds] eqn:Edocs; [congruence|]. rewrite <- Edocs. clear Hne.
  assert (Hdocs : forall f, In f docs ->
                            startswith f "~$" = false /\ is_Some (td !! f)).
  { intros f Hf. apply list_elem_of_In in Hf. subst docs.
    apply document_files_spec in Hf as [Hin Hlock]. auto. }
  pose proof (batch_lists render libreoffice td out docs data (Some ts) (Some name) ts w)
    as (Hfilled & Herrors & Hsuccess).
  pose proof (batch_entries render libreoffice td data ts (Some name) docs) as Hcount.
  pose proof (batch_errors_existing td data ts (Some name) docs Hdocs) as Herr.
  rewrite (filter_all _ docs) in Hcount
    by (intros x Hx%list_elem_of_In; apply (Hdocs x Hx)).
  change (default ts (Some ts)) with ts in Hfilled, Herrors.
  rewrite <- Hfilled, <- Herrors in Hcount.
  rewrite <- Herrors in Herr.
  destruct (fill_multiple_documents render libreoffice td out docs data (Some ts)
              (Some name) ts w) as [result w1] eqn:Ebatch.
  cbn [fst] in *.
  destruct (success result) eqn:Hs; cbn [fst].
  - symmetry in Hsuccess. apply Nat.ltb_lt in Hsuccess.
    split; [intros E; rewrite E in Hsuccess; simpl in Hsuccess; lia|].
    split; [exact Hcount|]. split; [exact Herr|]. split; [reflexivity|].
    apply (f_equal fst) in Ebatch. cbn [fst] in Ebatch. rewrite <- Ebatch.
    unfold fill_multiple_documents. cbn [fst output_folder].
    rewrite folder_of. reflexivity.
  - split; [reflexivity|]. exists (errors result). split; [reflexivity|].
    split; [|exact Herr].
    symmetry in Hsuccess. apply Nat.ltb_ge in Hsuccess. lia.
Qed.

End FillDocuments.

(** ** The history of output folders *)

Section OutputFolders.
Import Py DocumentFiller App Spec.

Lemma insert_newest_perm x l : insert_newest x l ≡ₚ x :: l.
Proof.
  induction l as [|y l IH]; simpl; [reflexivity|].
  destruct (QArith_base.Qle_bool _ _); [reflexivity|].
  rewrite IH. apply Permutation_swap.
Qed.

Lemma sort_newest_first_perm l : sort_newest_first l ≡ₚ l.
Proof.
  unfold sort_newest_first. induction l as [|x l IH]; simpl; [reflexivity|].
  rewrite insert_newest_perm, IH. reflexivity.
Qed.

Lemma insert_newest_sorted x l :
  Sorted.StronglySorted not_older l ->
  Sorted.StronglySorted not_older (insert_newest x l).
Proof.
  induction 1 as [|y l Hl IH Hy]; simpl.
  - constructor; constructor.
  - destruct (QArith_base.Qle_bool (o_created_at y) (o_created_at x)) eqn:E.
    + apply QArith_base.Qle_bool_iff in E.
      constructor; [constructor; assumption|].
      constructor; [exact E|].
      eapply Forall_impl; [exact Hy|]. intros z Hz. unfold not_older in *.
      eapply QArith_base.Qle_trans; eassumption.
    + constructor; [exact IH|].
      rewrite insert_newest_perm. constructor; [|exact Hy].
      unfold not_older. apply QArith_base.Qlt_le_weak, QArith_base.Qnot_le_lt.
      intros H. apply QArith_base.Qle_bool_iff in H. congruence.
Qed.

Lemma sort_newest_first_sorted l :
  Sorted.StronglySorted not_older (sort_newest_first l).
Proof.
  unfold sort_newest_first. induction l as [|x l IH]; simpl; [constructor|].
  apply insert_newest_sorted, IH.
Qed.

(** [get_output_folders] lists the directories of the output directory,
    each once and no plain file, from the newest to the oldest; without an
    output directory the list is empty. *)
Theorem output_folders_newest_first output_dir items :
  get_output_folders output_dir None = []
  /\ Sorted.StronglySorted not_older (get_output_folders output_dir (Some items))
  /\ map o_name (get_output_folders output_dir (Some items))
     ≡ₚ map e_name (filter (fun item => e_is_dir item = true) items).
Proof.
  split; [reflexivity|]. split.
  - apply sort_newest_first_sorted.
  - unfold get_output_folders. rewrite sort_newest_first_perm, map_map. reflexivity.
Qed.

Lemma format_folder_name reformat folder :
  l_name (format_folder reformat folder) = o_name folder.
Proof.
  unfold format_folder.
  destruct (split_char _ _ _) as [|d [|t rest]]; reflexivity.
Qed.

(** For a limit that is not negative, [get_latest_output_folders] returns
    the first [limit] folders of [get_output_folders], or all of them when
    there are fewer, under their names and in the same order; each folder
    it returns was created no earlier than each folder it leaves out. *)
Theorem latest_output_folders reformat output_dir listing limit :
  0 <= limit ->
  let all := get_output_folders output_dir listing in
  let latest := get_latest_output_folders reformat output_dir listing limit in
  length latest = Nat.min (Z.to_nat limit) (length all)
  /\ map l_name latest = take (Z.to_nat limit) (map o_name all)
  /\ (forall a b,
        In a (take (Z.to_nat limit) all) ->
        In b (drop (Z.to_nat limit) all) ->
        not_older a b).
Proof.
  intros Hlimit all latest. subst latest. unfold get_latest_output_folders, slice_to.
  fold all. rewrite (proj2 (Z.leb_le 0 limit) Hlimit).
  refine (conj _ (conj _ _)).
  - rewrite length_map, length_take. reflexivity.
  - rewrite map_map, <- fmap_take.
    apply map_ext. intros folder. apply format_folder_name.
  - intros a b Ha Hb.
    assert (Hsorted : Sorted.StronglySorted not_older all).
    { subst all. destruct listing as [items|]; [apply sort_newest_first_sorted|constructor]. }
    rewrite <- (take_drop (Z.to_nat limit) all) in Hsorted.
    revert Hsorted Ha Hb. generalize (take (Z.to_nat limit) all) (drop (Z.to_nat limit) all).
    intros l1 l2. induction l1 as [|x l1 IH]; intros Hs Ha Hb; [contradiction|].
    simpl in Hs. apply Sorted.StronglySorted_inv in Hs as [Hs Hx].
    destruct Ha as [->|Ha]; [|exact (IH Hs Ha Hb)].
    rewrite List.Forall_forall in Hx. apply Hx, in_or_app. right. exact Hb.
Qed.

(** The theorem at the sample output directory, limited to two folders. *)
Lemma latest_output_folders_witness :
  length (get_latest_output_folders (fun _ => None) ["output"]
            (Some Examples.output_listing) 2) = 2%nat
  /\ map l_name (get_latest_output_folders (fun _ => None) ["output"]
                   (Some Examples.output_listing) 2)
     = ["2024-05-03_09-30-00_my_offer"; "2024-05-02_08-00-00_invoice"].
Proof.
  destruct (latest_output_folders (fun _ => None) ["output"]
              (Some Examples.output_listing) 2) as (Hlen & Hnames & _); [lia|].
  split; [exact Hlen | exact Hnames].
Defined.

Lemma append_assoc (s t u : string) : (s +:+ t) +:+ u = s +:+ (t +:+ u).
Proof.
  induction s as [|c s IH]; [reflexivity|].
  change (String c ((s +:+ t) +:+ u) = String c (s +:+ (t +:+ u))).
  rewrite IH. reflexivity.
Qed.

Lemma split_char_first sep m s rest :
  free_of sep s ->
  split_char sep (S m) (s +:+ String sep rest) = s :: split_char sep m rest.
Proof.
  unfold free_of. induction s as [|c s IH]; intros Hs.
  - change (split_char sep (S m) (String sep rest) = "" :: split_char sep m rest).
    cbn [split_char]. rewrite Ascii.eqb_refl. reflexivity.
  - cbn [all_chars] in Hs. apply andb_true_iff in Hs as [Hc Hs].
    apply negb_true_iff in Hc.
    change (split_char sep (S m) (String c (s +:+ String sep rest))
            = String c s :: split_char sep m rest).
    cbn [split_char]. rewrite Hc, (IH Hs). reflexivity.
Qed.

Lemma split_char_zero sep s : split_char sep 0 s = [s].
Proof. destruct s; reflexivity. Qed.

(** The history reads back what the fill engine wrote: for a folder named
    by the engine from a timestamp [date_time] and a template name, the
    template name shown is the one used for filling, underscores in it
    included, and the date shown is made from the date and the time with
    the dashes of the time turned into colons. *)
Theorem folder_name_round_trip reformat date time template_name folder :
  free_of "_" date ->
  free_of "_" time ->
  o_name folder = timestamped_folder (date +:+ "_" +:+ time) (Some template_name) ->
  l_template_name (format_folder reformat folder) = template_name
  /\ l_created_date (format_folder reformat folder)
     = default (o_name folder)
               (reformat (date +:+ " " +:+ replace_char "-" ":" time)).
Proof.
  intros Hd Ht Hname. unfold format_folder. rewrite Hname.
  unfold timestamped_folder. cbn [default from_option id].
  assert (Hsplit : split_char "_" 2 ((date +:+ "_" +:+ time) +:+ "_" +:+ template_name)
                   = [date; time; template_name]).
  { rewrite append_assoc.
    change (date +:+ ("_" +:+ time) +:+ "_" +:+ template_name)
      with (date +:+ String "_" ((time +:+ String "_" template_name))).
    rewrite (split_char_first _ _ _ _ Hd), (split_char_first _ _ _ _ Ht).
    rewrite split_char_zero. reflexivity. }
  rewrite Hsplit. split; reflexivity.
Qed.

(** The theorem at the folder the engine names for the template
    [my_offer]. *)
Lemma folder_name_round_trip_witness :
  l_template_name
    (format_folder (fun _ => None)
       {| o_name := "2024-05-03_09-30-00_my_offer";
          o_created_at := QArith_base.Qmake 300 1;
          o_path := "output/2024-05-03_09-30-00_my_offer" |}) = "my_offer"
  /\ l_created_date
       (format_folder (fun _ => None)
          {| o_name := "2024-05-03_09-30-00_my_offer";
             o_created_at := QArith_base.Qmake 300 1;
             o_path := "output/2024-05-03_09-30-00_my_offer" |})
     = default "2024-05-03_09-30-00_my_offer"
         ((fun _ : string => None) ("2024-05-03" +:+ " " +:+ replace_char "-" ":" "09-30-00")).
Proof.
  apply (folder_name_round_trip (fun _ => None) "2024-05-03" "09-30-00" "my_offer").
  - reflexivity.
  - reflexivity.
  - reflexivity.
Defined.

End OutputFolders.

(** ** The properties above at sample inputs *)

Section ExtraSamples.
Import Py DocumentFiller App Spec Examples.

(** [rendering_outcome] at [report.docx] placed after [letter.doc], and at
    an empty document, for which the sample renderer raises. *)
Lemma rendering_outcome_witness :
  (filled_files (fst (sample_batch (["letter.doc"] ++ ["report.docx"])))
   = filled_files (fst (sample_batch ["letter.doc"])) ++
     [reported_path "2024-05-01_10-00-00" (Some "invoice") "report.docx"]
   /\ errors (fst (sample_batch (["letter.doc"] ++ ["report.docx"])))
      = errors (fst (sample_batch ["letter.doc"]))
   /\ Disk.files (disk (snd (sample_batch (["letter.doc"] ++ ["report.docx"]))))
      = <[Path.div (output_folder_of ["output"] "2024-05-01_10-00-00" (Some "invoice"))
                   "report.docx" := [x50; x4b; x00]]>
          (Disk.files (disk (snd (sample_batch ["letter.doc"]))))
   /\ stdout (snd (sample_batch (["letter.doc"] ++ ["report.docx"])))
      = stdout (snd (sample_batch ["letter.doc"])))
  /\ (errors (fst (fill_multiple_documents sample_render no_converter broken_templates
                     ["output"] ([] ++ ["broken.docx"]) [] None None "2024-05-01_10-00-01"
                     fresh))
      = errors (fst (fill_multiple_documents sample_render no_converter broken_templates
                       ["output"] [] [] None None "2024-05-01_10-00-01" fresh)) ++
        ["Error filling broken.docx: Error filling document: Package not found"]).
Proof.
  split.
  - apply (proj1 (rendering_outcome sample_render no_converter sample_templates
                    ["output"] ["letter.doc"] "report.docx" []
                    (Some "2024-05-01_10-00-00") (Some "invoice")
                    "2024-05-01_10-00-01" fresh [x50; x4b] [x50; x4b]
                    eq_refl eq_refl eq_refl) [x50; x4b; x00]).
    reflexivity.
  - apply (proj2 (rendering_outcome sample_render no_converter broken_templates
                    ["output"] [] "broken.docx" [] None None
                    "2024-05-01_10-00-01" fresh [] []
                    eq_refl eq_refl eq_refl) (Exception "Package not found")).
    reflexivity.
Defined.



(** [fill_documents_reply] at the invoice folder, on a machine without the
    converter. *)
Lemma fill_documents_reply_witness :
  match fst (fill_documents sample_render no_converter (Some folder_invoice)
               invoice_files ["output"] "invoice" [] "2024-05-01_10-00-00" fresh) with
  | FillDone _ files errs notes out_folder =>
      files <> []
      /\ (length files + length errs = length (document_files folder_invoice))%nat
      /\ Forall (fun e => startswith e "Error filling " = true) errs
      /\ notes = map legacy_note
                    (filter (fun f => endswith f ".doc" = true)
                            (document_files folder_invoice))
      /\ out_folder
         = Path.to_str (output_folder_of ["output"] "2024-05-01_10-00-00" (Some "invoice"))
  | FillFailed message errs =>
      message = "Failed to fill documents"
      /\ exists es,
           errs = Some es
           /\ length es = length (document_files folder_invoice)
           /\ Forall (fun e => startswith e "Error filling " = true) es
  end.
Proof.
  assert (Hfiles : forall f, In f (entries folder_invoice) ->
                             is_Some (invoice_files !! f))
    by (intros f [<-|[<-|[<-|[<-|[]]]]]; vm_compute; eauto).
  apply (proj2 (fill_documents_reply sample_render no_converter folder_invoice
                  invoice_files ["output"] "invoice" [] "2024-05-01_10-00-00" fresh
                  Hfiles)).
  discriminate.
Defined.

(** The reply for the invoice folder in full. *)
Example invoice_reply :
  fst (fill_documents sample_render no_converter (Some folder_invoice)
         invoice_files ["output"] "invoice" [] "2024-05-01_10-00-00" fresh)
  = FillDone
      ("Successfully filled 2 document(s)<br><br>" +:+ saved_marker +:+
       " Saved to: <strong>2024-05-01_10-00-00_invoice</strong>")
      ["2024-05-01_10-00-00_invoice/report.docx";
       "2024-05-01_10-00-00_invoice/letter.doc"]
      []
      [legacy_note "letter.doc"]
      "output/2024-05-01_10-00-00_invoice".
Proof. vm_compute. reflexivity. Qed.

End ExtraSamples.
